(** * Verification of the content-verification gateway (src/main.py)

    A shallow embedding of the three verification endpoints of the FastAPI
    application: [verify_image_with_reality_defender], [verify_text_disinfo]
    and [verify_link] with its nested helper [_extract_youtube_video_id].

    Conventions of the embedding.
    - A Python [str] is a Rocq [string] holding its UTF-8 encoding.  Every
      character the code inspects (URL delimiters, host letters, the schema
      keys) is ASCII, which UTF-8 keeps as single bytes.
    - The values [json.loads] produces are the inductive [pyval]; a Python
      [dict] with string keys is a [gmap string pyval].
    - Exceptions are the inductive [exc]; code that may raise returns an
      [outcome]; handlers thread a [state] (the files under /tmp and the log
      of calls made to the external providers) through the monad [M].
    - The external collaborators (environment variables, the Supadata,
      xAI and Reality Defender services, the temporary-file facility) are
      fields of the record [World]; library routines whose tables are not
      reproduced here (Unicode normalisation, percent decoding, the JSON
      parser) are fields of the record [PyLib].  Theorems quantify over
      both. *)

From Stdlib Require Import ZArith String Ascii Floats Bool Lia.
From stdpp Require Import gmap strings list.

Set Warnings "-register-all,-inexact-float".
Local Open Scope string_scope.
Local Open Scope Z_scope.

(** ** Text *)

Module Text.

Definition code (c : ascii) : N := N_of_ascii c.

Definition isascii (c : ascii) : bool := (code c <? 128)%N.

Definition is_upper (c : ascii) : bool := ((65 <=? code c) && (code c <=? 90))%N.

Definition is_lower (c : ascii) : bool := ((97 <=? code c) && (code c <=? 122))%N.

Definition is_digit (c : ascii) : bool := ((48 <=? code c) && (code c <=? 57))%N.

(** [c.isascii() and c.isalpha()]. *)
Definition is_ascii_alpha (c : ascii) : bool := is_upper c || is_lower c.

(** One character of [str.lower()].  Only the ASCII letters are mapped: the
    lower-casing of characters outside ASCII changes bytes that are not
    ASCII into bytes that are not ASCII, except for U+0130 and U+212A,
    whose images contain [i] and [k]. *)
Definition lower_char (c : ascii) : ascii :=
  if is_upper c then ascii_of_N (code c + 32) else c.

Fixpoint lower (s : string) : string :=
  match s with
  | EmptyString => EmptyString
  | String c s' => String (lower_char c) (lower s')
  end.

Fixpoint all_chars (p : ascii -> bool) (s : string) : bool :=
  match s with
  | EmptyString => true
  | String c s' => p c && all_chars p s'
  end.

(** [c in s] for a one-character [c]. *)
Fixpoint has_char (c : ascii) (s : string) : bool :=
  match s with
  | EmptyString => false
  | String d s' => Ascii.eqb d c || has_char c s'
  end.

(** [s.lstrip(chars)], the set [chars] given by its membership test. *)
Fixpoint lstrip (p : ascii -> bool) (s : string) : string :=
  match s with
  | EmptyString => EmptyString
  | String c s' => if p c then lstrip p s' else s
  end.

(** [s.replace(c, "")] for every [c] of a set. *)
Fixpoint remove (p : ascii -> bool) (s : string) : string :=
  match s with
  | EmptyString => EmptyString
  | String c s' => if p c then remove p s' else String c (remove p s')
  end.

(** [s.replace(a, b)] for one-character [a] and [b]. *)
Fixpoint replace_char (a b : ascii) (s : string) : string :=
  match s with
  | EmptyString => EmptyString
  | String c s' => String (if Ascii.eqb c a then b else c) (replace_char a b s')
  end.

(** The longest prefix whose characters all fail [p], and the rest. *)
Fixpoint break (p : ascii -> bool) (s : string) : string * string :=
  match s with
  | EmptyString => (EmptyString, EmptyString)
  | String c s' =>
      if p c then (EmptyString, s)
      else let '(a, b) := break p s' in (String c a, b)
  end.

(** [s.split(c, 1)]: the parts before and after the first [c], when [c in s]. *)
Definition split_once (c : ascii) (s : string) : option (string * string) :=
  match break (Ascii.eqb c) s with
  | (a, String _ b) => Some (a, b)
  | (_, EmptyString) => None
  end.

(** [s.split(c)] for a one-character separator. *)
Fixpoint split (c : ascii) (s : string) : list string :=
  match s with
  | EmptyString => [EmptyString]
  | String d s' =>
      if Ascii.eqb d c then EmptyString :: split c s'
      else match split c s' with
           | p :: ps => String d p :: ps
           | [] => [String d EmptyString]
           end
  end.

(** [s.rsplit(c, 1)] when [c in s]: the parts around the last [c]. *)
Fixpoint rsplit_once (c : ascii) (s : string) : option (string * string) :=
  match s with
  | EmptyString => None
  | String d s' =>
      match rsplit_once c s' with
      | Some (a, b) => Some (String d a, b)
      | None => if Ascii.eqb d c then Some (EmptyString, s') else None
      end
  end.

(** [s.startswith(p)]. *)
Fixpoint startswith (s p : string) {struct p} : bool :=
  match p with
  | EmptyString => true
  | String a p' =>
      match s with
      | EmptyString => false
      | String b s' => Ascii.eqb b a && startswith s' p'
      end
  end.

(** [sub in s] for strings. *)
Definition contains (sub s : string) : bool :=
  match String.index 0 sub s with Some _ => true | None => false end.

Definition nonempty (s : string) : bool :=
  match s with EmptyString => false | String _ _ => true end.

(** The characters [str.isspace] accepts, as the UTF-8 sequences that open
    a string: the number of bytes of the white-space character [s] starts
    with, or [0]. *)
Definition space_prefix (s : string) : nat :=
  match s with
  | String a r =>
      let a := code a in
      if ((9 <=? a) && (a <=? 13) || (28 <=? a) && (a <=? 32))%N then 1%nat
      else match r with
           | String b r' =>
               let b := code b in
               if ((a =? 194) && ((b =? 133) || (b =? 160)))%N then 2%nat
               else match r' with
                    | String c _ =>
                        let c := code c in
                        if ((a =? 225) && (b =? 154) && (c =? 128)
                            || (a =? 226) && (b =? 128)
                               && ((128 <=? c) && (c <=? 138) || (c =? 168) || (c =? 169) || (c =? 175))
                            || (a =? 226) && (b =? 129) && (c =? 159)
                            || (a =? 227) && (b =? 128) && (c =? 128))%N
                        then 3%nat else 0%nat
                    | EmptyString => 0%nat
                    end
           | EmptyString => 0%nat
           end
  | EmptyString => 0%nat
  end.

Fixpoint drop (n : nat) (s : string) : string :=
  match n, s with
  | S n', String _ s' => drop n' s'
  | _, _ => s
  end.

(** [s.lstrip()]; the fuel is the length of [s]. *)
Fixpoint lstrip_space (fuel : nat) (s : string) : string :=
  match fuel with
  | O => s
  | S fuel' =>
      match space_prefix s with
      | O => s
      | n => lstrip_space fuel' (drop n s)
      end
  end.

(** The characters of a string, each as its UTF-8 bytes (the length of a
    character read from its first byte). *)
Definition char_len (c : ascii) : nat :=
  let a := code c in
  if (a <? 192)%N then 1%nat else if (a <? 224)%N then 2%nat
  else if (a <? 240)%N then 3%nat else 4%nat.

Fixpoint take (n : nat) (s : string) : string :=
  match n, s with
  | S n', String c s' => String c (take n' s')
  | _, _ => EmptyString
  end.

Fixpoint chars (fuel : nat) (s : string) : list string :=
  match fuel, s with
  | S fuel', String c _ =>
      take (char_len c) s :: chars fuel' (drop (char_len c) s)
  | _, _ => []
  end.

(** Does [s] end with a white-space character?  Then its number of bytes. *)
Definition space_suffix (s : string) : nat :=
  let n := String.length s in
  if (Nat.leb 3 n && Nat.eqb (space_prefix (drop (n - 3) s)) 3)%bool then 3%nat
  else if (Nat.leb 2 n && Nat.eqb (space_prefix (drop (n - 2) s)) 2)%bool then 2%nat
  else if (Nat.leb 1 n && Nat.eqb (space_prefix (drop (n - 1) s)) 1)%bool then 1%nat
  else 0%nat.

Fixpoint rstrip_space (fuel : nat) (s : string) : string :=
  match fuel with
  | O => s
  | S fuel' =>
      match space_suffix s with
      | O => s
      | n => rstrip_space fuel' (take (String.length s - n) s)
      end
  end.

(** [s.strip()]. *)
Definition strip (s : string) : string :=
  let l := lstrip_space (String.length s) s in
  rstrip_space (String.length l) l.

End Text.

(** ** Python values and exceptions *)

(** The values of the JSON documents the handlers read: what [json.loads]
    and [Response.json()] return. *)
Inductive pyval :=
| PyNone
| PyBool (b : bool)
| PyInt (n : Z)
| PyFloat (f : float)
| PyStr (s : string)
| PyList (l : list pyval)
| PyDict (d : gmap string pyval).

(** The exceptions the handlers meet: everything but FastAPI's
    [HTTPException], which only the handlers themselves raise. *)
Inductive error :=
| SupadataError (status status_code : option Z) (message : string)
| TimeoutError
| JSONDecodeError
| TypeError
| AttributeError
| IndexError
| KeyError
| ValueError
| OtherError (name : string)
| CancelledError.

(** What a handler can raise: an [HTTPException] of its own, or one of the
    above.  The [detail] of an [HTTPException] is a literal, or an f-string
    that ends with the text of the exception it reports. *)
Inductive exc :=
| HTTPException (status_code : Z) (detail : detail)
| Err (e : error)
with detail :=
| Msg (s : string)
| MsgExc (prefix : string) (e : exc).

(** [isinstance(e, Exception)]: everything but [asyncio.CancelledError], a
    [BaseException]. *)
Definition is_Exception (e : exc) : bool :=
  match e with Err CancelledError => false | _ => true end.

(** The result of code that may raise. *)
Inductive res (E A : Type) :=
| Return (a : A)
| Raise (e : E).
Arguments Return {E A} a.
Arguments Raise {E A} e.

(** What a handler's own code yields, and what a library or a provider
    yields. *)
Abbreviation outcome := (res exc).
Abbreviation foreign := (res error).

Definition lift {A} (r : foreign A) : outcome A :=
  match r with Return a => Return a | Raise e => Raise (Err e) end.

Definition bind_res {E A B} (r : res E A) (k : A -> res E B) : res E B :=
  match r with Return a => k a | Raise e => Raise e end.

Notation "x <~ r ;; k" := (bind_res r (fun x => k))
  (at level 90, r at next level, right associativity).

Module Py.

(** [bool(v)]. *)
Definition truthy (v : pyval) : bool :=
  match v with
  | PyNone => false
  | PyBool b => b
  | PyInt n => negb (n =? 0)
  | PyFloat f => negb (PrimFloat.eqb f 0%float)
  | PyStr s => Text.nonempty s
  | PyList l => match l with [] => false | _ :: _ => true end
  | PyDict d => negb (bool_decide (d = ∅))
  end.

(** [v.get(key, default)]: only a dict has the method. *)
Definition get (v : pyval) (key : string) (default : pyval) : outcome pyval :=
  match v with
  | PyDict d => Return (match d !! key with Some x => x | None => default end)
  | _ => Raise (Err AttributeError)
  end.

(** [v[0]]. *)
Definition item0 (v : pyval) : outcome pyval :=
  match v with
  | PyList (x :: _) => Return x
  | PyList [] => Raise (Err IndexError)
  | PyStr s =>
      match Text.chars 1 s with
      | c :: _ => Return (PyStr c)
      | [] => Raise (Err IndexError)
      end
  | PyDict _ => Raise (Err KeyError)
  | _ => Raise (Err TypeError)
  end.

(** [x == PyStr s] for a value [x]. *)
Definition eq_str (x : pyval) (s : string) : bool :=
  match x with PyStr t => String.eqb t s | _ => false end.

(** [key in v] for a string [key]. *)
Definition contains (key : string) (v : pyval) : outcome bool :=
  match v with
  | PyDict d => Return (bool_decide (is_Some (d !! key)))
  | PyList l => Return (existsb (fun x => eq_str x key) l)
  | PyStr s => Return (Text.contains key s)
  | _ => Raise (Err TypeError)
  end.

(** [isinstance(v, list)]. *)
Definition is_list (v : pyval) : bool :=
  match v with PyList _ => true | _ => false end.

(** [len(v)] of a list. *)
Definition len (v : pyval) : Z :=
  match v with PyList l => Z.of_nat (length l) | _ => 0 end.

(** [v[key]] for a string [key]. *)
Definition getitem (v : pyval) (key : string) : outcome pyval :=
  match v with
  | PyDict d => match d !! key with
                | Some x => Return x
                | None => Raise (Err KeyError)
                end
  | _ => Raise (Err TypeError)
  end.

(** A dict display [{k1: v1, ...}] with distinct keys. *)
Definition dict (l : list (string * pyval)) : pyval :=
  PyDict (list_to_map (M := gmap string pyval) l).

(** [iter(v)]: the elements a [for] loop visits. *)
Definition elements (v : pyval) : outcome (list pyval) :=
  match v with
  | PyList l => Return l
  | PyStr s => Return (PyStr <$> Text.chars (String.length s) s)
  | PyDict d => Return (PyStr <$> (map_to_list d).*1)
  | _ => Raise (Err TypeError)
  end.

End Py.

(** ** Library routines taken as parameters *)

Record PyLib := {
  (** [urllib.parse._check_bracketed_host]: does it reject the text between
      the brackets of a network location? *)
  check_bracketed_host_raises : string -> bool;
  (** [urllib.parse._checknetloc] on a network location that is not ASCII:
      does its NFKC normal form contain one of [/?#@:]? *)
  checknetloc_raises : string -> bool;
  (** [urllib.parse.unquote] on a string that contains [%]. *)
  unquote_escapes : string -> string;
  (** [json.loads] on a [str]. *)
  json_loads : string -> foreign pyval;
}.

(** ** urllib.parse (CPython 3.12) *)

Module Url.

Record ParseResult := {
  scheme : string;
  netloc : string;
  path : string;
  params : string;
  query : string;
  fragment : string;
}.

(** [_WHATWG_C0_CONTROL_OR_SPACE]. *)
Definition c0_control_or_space (c : ascii) : bool := (Text.code c <=? 32)%N.

(** [_UNSAFE_URL_BYTES_TO_REMOVE]: tab, carriage return, line feed. *)
Definition unsafe_byte (c : ascii) : bool :=
  ((Text.code c =? 9) || (Text.code c =? 13) || (Text.code c =? 10))%N.

(** [scheme_chars]: letters, digits and [+-.]. *)
Definition scheme_char (c : ascii) : bool :=
  Text.is_ascii_alpha c || Text.is_digit c
  || Ascii.eqb c "+" || Ascii.eqb c "-" || Ascii.eqb c ".".

Definition netloc_delim (c : ascii) : bool :=
  Ascii.eqb c "/" || Ascii.eqb c "?" || Ascii.eqb c "#".

Definition uses_params : list string :=
  [""; "ftp"; "hdl"; "prospero"; "http"; "imap"; "https"; "shttp"; "rtsp";
   "rtspu"; "sip"; "sips"; "mms"; "sftp"; "tel"].

Definition first_is (p : ascii -> bool) (s : string) : bool :=
  match s with String c _ => p c | EmptyString => false end.

(** The scheme of [url] and what follows its colon. *)
Definition split_scheme (url : string) : string * string :=
  match Text.split_once ":" url with
  | Some (pre, post) =>
      if Text.nonempty pre && first_is Text.is_ascii_alpha pre
         && Text.all_chars scheme_char pre
      then (Text.lower pre, post)
      else (EmptyString, url)
  | None => (EmptyString, url)
  end.

(** [netloc.partition('[')[2].partition(']')[0]]. *)
Definition bracketed_host (netloc : string) : string :=
  match Text.split_once "[" netloc with
  | Some (_, after) =>
      match Text.split_once "]" after with
      | Some (inside, _) => inside
      | None => after
      end
  | None => EmptyString
  end.

Section WithLib.
Context (lib : PyLib).

Definition urlsplit (url0 : string) : foreign ParseResult :=
  let url := Text.lstrip c0_control_or_space url0 in
  let url := Text.remove unsafe_byte url in
  let '(scheme, url) := split_scheme url in
  let '(netloc, url) :=
    if Text.startswith url "//"
    then Text.break netloc_delim (Text.drop 2 url)
    else (EmptyString, url) in
  let open := Text.has_char "[" netloc in
  let close := Text.has_char "]" netloc in
  if xorb open close then Raise ValueError
  else if open && close && check_bracketed_host_raises lib (bracketed_host netloc)
  then Raise ValueError
  else
    let '(url, fragment) :=
      match Text.split_once "#" url with
      | Some (u, f) => (u, f)
      | None => (url, EmptyString)
      end in
    let '(url, query) :=
      match Text.split_once "?" url with
      | Some (u, q) => (u, q)
      | None => (url, EmptyString)
      end in
    if Text.nonempty netloc && negb (Text.all_chars Text.isascii netloc)
       && checknetloc_raises lib netloc
    then Raise ValueError
    else Return {| scheme := scheme; netloc := netloc; path := url;
                   params := EmptyString; query := query; fragment := fragment |}.

(** [_splitparams]: the parameters follow the first [;] of the last
    path segment. *)
Definition splitparams (url : string) : string * string :=
  match Text.rsplit_once "/" url with
  | Some (dir, last) =>
      match Text.split_once ";" last with
      | Some (seg, par) => (dir +:+ "/" +:+ seg, par)
      | None => (url, EmptyString)
      end
  | None =>
      match Text.split_once ";" url with
      | Some (seg, par) => (seg, par)
      | None => (url, EmptyString)
      end
  end.

Definition urlparse (url : string) : foreign ParseResult :=
  match urlsplit url with
  | Raise e => Raise e
  | Return r =>
      if bool_decide (scheme r ∈ uses_params) && Text.has_char ";" (path r)
      then let '(p, par) := splitparams (path r) in
           Return {| scheme := scheme r; netloc := netloc r; path := p;
                     params := par; query := query r; fragment := fragment r |}
      else Return r
  end.

(** [unquote(s)]. *)
Definition unquote (s : string) : string :=
  if Text.has_char "%" s then unquote_escapes lib s else s.

(** [parse_qsl(qs)] with its defaults: blank values dropped, [&] the
    separator. *)
Definition parse_qsl (qs : string) : list (string * string) :=
  if negb (Text.nonempty qs) then []
  else
    omap (fun name_value =>
            match Text.split_once "=" name_value with
            | Some (n, v) =>
                if Text.nonempty v
                then Some (unquote (Text.replace_char "+" " " n),
                           unquote (Text.replace_char "+" " " v))
                else None
            | None => None
            end)
         (Text.split "&" qs).

(** [parse_qs(qs)]: the values of each name, in order. *)
Definition parse_qs (qs : string) : gmap string (list string) :=
  foldl (fun (d : gmap string (list string)) '(name, value) =>
           match d !! name with
           | Some vs => <[name := (vs ++ [value])%list]> d
           | None => <[name := [value]]> d
           end)
        ∅ (parse_qsl qs).

End WithLib.

End Url.

(** ** The world of a request, and the monad of the handlers *)

(** An [httpx.Response], by the three accessors the handlers use. *)
Record Response := {
  status_code : Z;
  text : string;
  json : foreign pyval;
}.

(** The body of the POST to the chat-completions endpoint. *)
Record ChatRequest := {
  req_authorization : string;
  req_model : string;
  req_messages : list (string * string);
  req_response_format : pyval;
  req_search_mode : string;
  req_temperature : float;
}.

(** The uploaded file of a multipart request. *)
Record UploadFile := {
  content_type : option string;
  filename : option string;
  read : foreign (list Byte.byte);
}.

Record World := {
  (** [os.getenv]. *)
  getenv : string -> option string;
  (** [supadata.youtube.transcript(video_id=.., text=True).content]. *)
  youtube_transcript : string -> foreign (option string);
  (** [supadata.web.scrape(url).content]. *)
  web_scrape : string -> foreign (option string);
  (** [client.post("https://api.x.ai/v1/chat/completions", ...)]. *)
  chat_completions : ChatRequest -> foreign Response;
  (** [tempfile.NamedTemporaryFile(delete=False, ..., dir="/tmp")]: the name
      of the file it creates. *)
  named_temporary_file : foreign string;
  (** [tmp.write(data)]. *)
  tmp_write : list Byte.byte -> foreign unit;
  (** [RealityDefender(api_key=..)]. *)
  rd_init : string -> foreign unit;
  (** [rd.upload(file_path=..)]. *)
  rd_upload : string -> foreign pyval;
  (** [rd.get_result(request_id)]: the milliseconds it takes, and what it
      yields. *)
  rd_get_result : pyval -> N * foreign pyval;
}.

(** A call made to an external provider. *)
Inductive call :=
| CallTranscript (video_id : string)
| CallScrape (url : string)
| CallChat (req : ChatRequest)
| CallUpload (file_path : string)
| CallGetResult (request_id : pyval).

Record state := {
  (** The files that exist, with their contents. *)
  files : gmap string (list Byte.byte);
  (** The provider calls made so far, oldest first. *)
  calls : list call;
}.

Definition M (A : Type) : Type := state -> outcome A * state.

Module M.

Definition ret {A} (a : A) : M A := fun s => (Return a, s).

Definition raise {A} (e : exc) : M A := fun s => (Raise e, s).

Definition bind {A B} (m : M A) (k : A -> M B) : M B :=
  fun s => match m s with
           | (Return a, s') => k a s'
           | (Raise e, s') => (Raise e, s')
           end.

Definition of_outcome {A} (r : outcome A) : M A := fun s => (r, s).

Definition of_foreign {A} (r : foreign A) : M A := of_outcome (lift r).

(** [try: body / except ...: handler]; the handler re-raises what no
    clause catches. *)
Definition try_except {A} (body : M A) (handler : exc -> M A) : M A :=
  fun s => match body s with
           | (Return a, s') => (Return a, s')
           | (Raise e, s') => handler e s'
           end.

(** [try: body / finally: fin]. *)
Definition try_finally {A} (body : M A) (fin : M unit) : M A :=
  fun s => match body s with
           | (r, s') =>
               match fin s' with
               | (Return _, s'') => (r, s'')
               | (Raise e, s'') => (Raise e, s'')
               end
           end.

(** A provider call: logged, then answered by the world. *)
Definition provider {A} (c : call) (r : foreign A) : M A :=
  fun s => (lift r, {| files := files s; calls := (calls s ++ [c])%list |}).

(** [open(path, "wb")]: the file appears, empty. *)
Definition create (path : string) : M unit :=
  fun s => (Return tt, {| files := <[path := []]> (files s); calls := calls s |}).

Definition write (path : string) (data : list Byte.byte) : M unit :=
  fun s => (Return tt, {| files := <[path := data]> (files s); calls := calls s |}).

(** [os.path.exists(path)]. *)
Definition exists_ (path : string) : M bool :=
  fun s => (Return (bool_decide (is_Some (files s !! path))), s).

(** [os.remove(path)]. *)
Definition remove (path : string) : M unit :=
  fun s => match files s !! path with
           | Some _ => (Return tt, {| files := delete path (files s); calls := calls s |})
           | None => (Raise (Err (OtherError "FileNotFoundError")), s)
           end.

End M.

Notation "x <- m ;; k" := (M.bind m (fun x => k))
  (at level 90, m at next level, right associativity).
Notation "m ;;; k" := (M.bind m (fun _ => k))
  (at level 90, right associativity).

(** [not api_key] for the result of [os.getenv]. *)
Definition unset (v : option string) : bool :=
  match v with Some s => negb (Text.nonempty s) | None => true end.

(** [v or ""] for an optional string. *)
Definition or_empty (v : option string) : string :=
  match v with Some s => s | None => EmptyString end.

(** ** The verdict schema and its hard check *)

Definition system_prompt : string :=
  "Jesteś dziennikarzem zajmującym się walką z dezinformacją i rosyjską propagandą. "
  +:+ "Przeanalizuj poniższy tekst i oceń, czy jest dezinformacją/rosyjską propagandą czy nie. "
  +:+ "Skup się na informacjach z internetu, przeanalizuj źródła popularnych stron dziennikarskich (np. Onet) "
  +:+ "oraz rządowe strony. Zwróć wynik wyłącznie jako poprawny JSON wg zadanego schematu.".

(** The [properties] of the schema; [verify_text_disinfo] describes each
    one, [verify_link] does not. *)
Definition schema_properties (described : bool) : pyval :=
  let field (ty : list (string * pyval)) (description : string) :=
    Py.dict (if described
             then (ty ++ [("description", PyStr description)])%list
             else ty) in
  Py.dict
    [("decision",
       Py.dict (("type", PyStr "string")
                :: (if described
                    then [("description", PyStr "tak/nie czy propaganda/dezinformacja")]
                    else [])
                ++ [("enum", PyList [PyStr "tak"; PyStr "nie"])])%list);
     ("summary", field [("type", PyStr "string")] "krótkie podsumowanie, 1-2 zdania");
     ("ai_explanatation",
       field [("type", PyStr "string")] "około 5 zdań z wyjaśnieniami decyzji");
     ("sources",
       Py.dict (("type", PyStr "array")
                :: (if described
                    then [("description", PyStr "max 10 najważniejszych źródeł/URL-i")]
                    else [])
                ++ [("items", Py.dict [("type", PyStr "string")]);
                    ("maxItems", PyInt 10)])%list)].

Definition required : list string :=
  ["decision"; "summary"; "ai_explanatation"; "sources"].

Definition response_format (described : bool) : pyval :=
  Py.dict
    [("type", PyStr "json_schema");
     ("json_schema",
       Py.dict
         [("name", PyStr "disinfo_check");
          ("schema",
            Py.dict
              [("type", PyStr "object");
               ("properties", schema_properties described);
               ("required", PyList (PyStr <$> required));
               ("additionalProperties", PyBool false)]);
          ("strict", PyBool true)])].

Definition chat_request (api_key : string) (described : bool) (content : string)
  : ChatRequest :=
  {| req_authorization := "Bearer " +:+ api_key;
     req_model := "grok-4-fast-reasoning";
     req_messages := [("system", system_prompt); ("user", content)];
     req_response_format := response_format described;
     req_search_mode := "on";
     req_temperature := 0.2%float |}.

(** [for key in [...]: if key not in parsed: raise HTTPException(502, ...)]. *)
Fixpoint check_required (keys : list string) (parsed : pyval) : outcome unit :=
  match keys with
  | [] => Return tt
  | key :: keys' =>
      present <~ Py.contains key parsed ;;
      if negb present
      then Raise (HTTPException 502 (Msg ("Brak wymaganego pola: " +:+ key)))
      else check_required keys' parsed
  end.

(** The "hard schema check": the three statements that follow the parsing
    of the model's answer, the same in [verify_text_disinfo] (lines 207-213)
    and in [verify_link] (lines 348-354). *)
Definition schema_check (parsed : pyval) : outcome unit :=
  _ <~ check_required required parsed ;;
  decision <~ Py.get parsed "decision" PyNone ;;
  if negb (Py.eq_str decision "tak" || Py.eq_str decision "nie")
  then Raise (HTTPException 502 (Msg "Pole 'decision' musi być 'tak' lub 'nie'"))
  else
    sources <~ Py.get parsed "sources" PyNone ;;
    bad <~ (if negb (Py.is_list sources) then Return true
            else s <~ Py.getitem parsed "sources" ;; Return (10 <? Py.len s)) ;;
    if (bad : bool)
    then Raise (HTTPException 502 (Msg "Pole 'sources' musi być listą (max 10)"))
    else Return tt.

(** [data.get("choices", [{}])[0].get("message", {}).get("content", "")]. *)
Definition message_content (data : pyval) : outcome pyval :=
  choices <~ Py.get data "choices" (PyList [PyDict ∅]) ;;
  choice <~ Py.item0 choices ;;
  message <~ Py.get choice "message" (PyDict ∅) ;;
  Py.get message "content" (PyStr "").

(** What the clauses [except HTTPException: raise / except Exception as e:
    raise HTTPException(502, prefix + str(e))] turn an exception into. *)
Definition surfaced (prefix : string) (e : exc) : exc :=
  match e with
  | HTTPException _ _ => e
  | Err _ => if is_Exception e then HTTPException 502 (MsgExc prefix e) else e
  end.

Definition reraise_or_502 {A} (prefix : string) (e : exc) : M A :=
  M.raise (surfaced prefix e).

Section Handlers.
Context (lib : PyLib) (w : World).

(** [json.loads(content)]: a [TypeError] unless [content] is a [str]. *)
Definition loads (content : pyval) : outcome pyval :=
  match content with
  | PyStr s => lift (json_loads lib s)
  | _ => Raise (Err TypeError)
  end.

(** *** POST /api/verify-text *)

(** The body of the [try] statement of [verify_text_disinfo]. *)
Definition text_analysis (api_key text_ : string) : M pyval :=
  let req := chat_request api_key true text_ in
  resp <- M.provider (CallChat req) (chat_completions w req) ;;
  if 400 <=? status_code resp
  then M.raise (HTTPException (status_code resp) (Msg ("xAI error: " +:+ text resp)))
  else
    data <- M.of_foreign (json resp) ;;
    content <- M.of_outcome (message_content data) ;;
    if negb (Py.truthy content)
    then M.raise (HTTPException 502 (Msg "Pusta odpowiedź modelu xAI"))
    else
      parsed <- M.try_except (M.of_outcome (loads content))
                  (fun e => match e with
                            | Err JSONDecodeError =>
                                M.raise (HTTPException 502
                                           (Msg "Model zwrócił niepoprawny JSON"))
                            | _ => M.raise e
                            end) ;;
      M.of_outcome (schema_check parsed) ;;;
      M.ret parsed.

Definition verify_text_disinfo (text_ : string) : M pyval :=
  let api_key := getenv w "XAI_API_KEY" in
  if unset api_key
  then M.raise (HTTPException 500 (Msg "Brak konfiguracji: ustaw XAI_API_KEY"))
  else
    M.try_except (text_analysis (or_empty api_key) text_)
      (reraise_or_502 "Błąd podczas analizy: ").

(** *** POST /api/verify-link *)

Definition youtube_hosts : list string :=
  ["www.youtube.com"; "youtube.com"; "m.youtube.com"].

Definition _extract_youtube_video_id (u : string) : option string :=
  match Url.urlparse lib u with
  | Raise _ => None
  | Return parsed =>
      let host := Text.lower (Url.netloc parsed) in
      let youtu_be :=
        if String.eqb host "youtu.be"
        then match Text.split "/" (Text.lstrip (Ascii.eqb "/") (Url.path parsed)) with
             | seg :: _ => if Text.nonempty seg then Some seg else None
             | [] => None
             end
        else None in
      if bool_decide (host ∈ youtube_hosts)
      then
        if Text.startswith (Url.path parsed) "/watch"
        then
          let q := Url.parse_qs lib (Url.query parsed) in
          match q !! "v" with
          | Some (v :: _) => if Text.nonempty v then Some v else None
          | Some [] => None
          | None => None
          end
        else if Text.startswith (Url.path parsed) "/shorts/"
        then
          let parts := Text.split "/" (Url.path parsed) in
          if (2 <? Z.of_nat (length parts))
          then parts !! 2%nat
          else None
        else youtu_be
      else youtu_be
  end.

(** The [messages] table of the [except SupadataError] clause. *)
Definition supadata_messages : gmap Z string :=
  list_to_map
    [(400, "Invalid Request: żądanie jest nieprawidłowe lub błędnie sformatowane");
     (401, "Unauthorized: sprawdź klucz API");
     (402, "Upgrade Required: funkcja niedostępna w Twoim planie");
     (404, "Not Found: nie znaleziono zasobu");
     (429, "Limit Exceeded: przekroczono dozwolony limit");
     (206, "Transcript Unavailable: brak transkrypcji dla tego filmu");
     (500, "Internal Error: błąd wewnętrzny")].

(** [a or b] for two optional integers. *)
Definition or_code (a b : option Z) : option Z :=
  match a with
  | Some n => if n =? 0 then b else a
  | None => b
  end.

(** [int(code or 502)]. *)
Definition code_or_502 (code : option Z) : Z :=
  match code with
  | Some c => if c =? 0 then 502 else c
  | None => 502
  end.

(** The [except] clauses of the extraction block, in their order:
    [SupadataError], [HTTPException], [Exception]. *)
Definition on_extraction_error (e : exc) : exc :=
  match e with
  | Err (SupadataError status status_code message) =>
      let code := or_code status status_code in
      let msg :=
        match code ≫= (fun c => supadata_messages !! c) with
        | Some m => Msg m
        | None => MsgExc "Supadata error: " e
        end in
      HTTPException (code_or_502 code) msg
  | _ => surfaced "Błąd Supadata: " e
  end.

(** The Supadata call the handler makes for [url], and its answer. *)
Definition supadata_call (url : string) : call * foreign (option string) :=
  match _extract_youtube_video_id url with
  | Some (String _ _ as video_id) =>
      (CallTranscript video_id, youtube_transcript w video_id)
  | _ => (CallScrape url, web_scrape w url)
  end.

(** The extraction block of [verify_link].  The Supadata client is built
    just before it, outside the [try] statement; building it is taken not
    to raise. *)
Definition link_content (url : string) : M string :=
  M.try_except
    (resp <- M.provider (fst (supadata_call url)) (snd (supadata_call url)) ;;
     let content := or_empty resp in
     if negb (Text.nonempty (Text.strip content))
     then M.raise (HTTPException 422
                     (Msg "Nie udało się wydobyć treści z podanego URL."))
     else M.ret content)
    (fun e => M.raise (on_extraction_error e)).

(** The analysis block of [verify_link]. *)
Definition link_analysis (xai_key content : string) : M pyval :=
  let req := chat_request xai_key false content in
  resp <- M.provider (CallChat req) (chat_completions w req) ;;
  if 400 <=? status_code resp
  then M.raise (HTTPException (status_code resp) (Msg ("xAI error: " +:+ text resp)))
  else
    data <- M.of_foreign (json resp) ;;
    content_json <- M.of_outcome (message_content data) ;;
    if negb (Py.truthy content_json)
    then M.raise (HTTPException 502 (Msg "Pusta odpowiedź modelu xAI"))
    else
      parsed <- M.of_outcome (loads content_json) ;;
      M.of_outcome (schema_check parsed) ;;;
      M.ret parsed.

Definition verify_link (url : string) : M pyval :=
  let supa_key := getenv w "SUPADATA_API_KEY" in
  if unset supa_key
  then M.raise (HTTPException 500 (Msg "Brak konfiguracji: ustaw SUPADATA_API_KEY"))
  else
    let xai_key := getenv w "XAI_API_KEY" in
    if unset xai_key
    then M.raise (HTTPException 500 (Msg "Brak konfiguracji: ustaw XAI_API_KEY"))
    else
      content <- link_content url ;;
      M.try_except (link_analysis (or_empty xai_key) content)
        (reraise_or_502 "Błąd podczas analizy: ").

(** *** POST /api/verify-image *)

(** [asyncio.wait_for(aw, timeout)]: the awaited call takes [fst aw]
    milliseconds. *)
Definition wait_for {A} (aw : N * foreign A) (timeout_ms : N) : foreign A :=
  if (timeout_ms <? fst aw)%N then Raise TimeoutError else snd aw.

Fixpoint model_entries (ms : list pyval) : M (list pyval) :=
  match ms with
  | [] => M.ret []
  | m :: ms' =>
      name <- M.of_outcome (Py.get m "name" PyNone) ;;
      status <- M.of_outcome (Py.get m "status" PyNone) ;;
      score <- M.of_outcome (Py.get m "score" PyNone) ;;
      metadata <- M.of_outcome (Py.get m "metadata" PyNone) ;;
      rest <- model_entries ms' ;;
      M.ret (Py.dict [("name", name); ("status", status); ("score", score);
                      ("metadata", metadata)] :: rest)
  end.

(** The first [try] statement: the upload is written to a new file
    under /tmp, which stays there when the [with] block ends
    ([delete=False]). *)
Definition save_upload (file : UploadFile) : M string :=
  M.try_except
    (name <- M.of_foreign (named_temporary_file w) ;;
     M.create name ;;;
     data <- M.of_foreign (read file) ;;
     M.of_foreign (tmp_write w data) ;;;
     M.write name data ;;;
     M.ret name)
    (fun e => if is_Exception e
              then M.raise (HTTPException 500
                              (MsgExc "Nie udało się zapisać pliku: " e))
              else M.raise e).

(** The body of the second [try] statement. *)
Definition detect (api_key tmp_path : string) : M pyval :=
  M.of_foreign (rd_init w api_key) ;;;
  upload_resp <- M.provider (CallUpload tmp_path) (rd_upload w tmp_path) ;;
  request_id <- M.of_outcome (Py.get upload_resp "request_id" PyNone) ;;
  if negb (Py.truthy request_id)
  then M.raise (HTTPException 502 (Msg "Reality Defender nie zwrócił request_id"))
  else
    result <- M.provider (CallGetResult request_id)
                (wait_for (rd_get_result w request_id) 90000) ;;
    status <- M.of_outcome (Py.get result "status" PyNone) ;;
    score <- M.of_outcome (Py.get result "score" PyNone) ;;
    ms <- M.of_outcome (Py.get result "models" (PyList [])) ;;
    ms <- M.of_outcome (Py.elements ms) ;;
    models <- model_entries ms ;;
    M.ret (Py.dict [("request_id", request_id); ("status", status);
                    ("score", score); ("models", PyList models)]).

(** Its [except] clauses, in their order: [asyncio.TimeoutError],
    [HTTPException], [Exception]. *)
Definition on_detection_error (e : exc) : exc :=
  match e with
  | Err TimeoutError =>
      HTTPException 504
        (Msg "Przekroczono czas oczekiwania na wynik Reality Defender")
  | _ => surfaced "Błąd Reality Defender: " e
  end.

(** Its [finally] clause. *)
Definition cleanup (tmp_path : string) : M unit :=
  M.try_except
    (present <- M.exists_ tmp_path ;;
     if (present : bool) then M.remove tmp_path else M.ret tt)
    (fun e => if is_Exception e then M.ret tt else M.raise e).

Definition verify_image_with_reality_defender (file : UploadFile) : M pyval :=
  if unset (content_type file)
     || negb (Text.startswith (or_empty (content_type file)) "image/")
  then M.raise (HTTPException 415
                  (Msg ("Nieobsługiwany typ pliku: "
                        +:+ (if unset (content_type file) then "brak"
                             else or_empty (content_type file))
                        +:+ " (wymagane image/*)")))
  else
    let api_key := getenv w "REALITY_DEFENDER_API_KEY" in
    if unset api_key
    then M.raise (HTTPException 500
                    (Msg "Brak konfiguracji: ustaw REALITY_DEFENDER_API_KEY"))
    else
      tmp_path <- save_upload file ;;
      M.try_finally
        (M.try_except (detect (or_empty api_key) tmp_path)
           (fun e => M.raise (on_detection_error e)))
        (cleanup tmp_path).

End Handlers.

(** * The vocabulary of the statements *)

(** The shape the check lets through. *)
Definition has_required (d : gmap string pyval) : Prop :=
  ∀ k, k ∈ required → is_Some (d !! k).

Definition decision_ok (d : gmap string pyval) : Prop :=
  d !! "decision" = Some (PyStr "tak") ∨ d !! "decision" = Some (PyStr "nie").

Definition sources_ok (d : gmap string pyval) : Prop :=
  ∃ l, d !! "sources" = Some (PyList l) ∧ (length l ≤ 10)%nat.

Definition verdict_shape (d : gmap string pyval) : Prop :=
  has_required d ∧ decision_ok d ∧ sources_ok d.

(** The first of [keys] that [d] lacks. *)
Definition first_missing (keys : list string) (d : gmap string pyval) : option string :=
  List.find (fun k => negb (bool_decide (is_Some (d !! k)))) keys.

(** The two tests of the check, on an object. *)
Definition decision_test_b (d : gmap string pyval) : bool :=
  Py.eq_str (default PyNone (d !! "decision")) "tak"
  || Py.eq_str (default PyNone (d !! "decision")) "nie".

Definition sources_test_b (d : gmap string pyval) : bool :=
  match d !! "sources" with
  | Some (PyList l) => negb (10 <? Z.of_nat (length l))
  | _ => false
  end.

(** The three errors of the check. *)
Definition missing_field (key : string) : exc :=
  HTTPException 502 (Msg ("Brak wymaganego pola: " +:+ key)).

Definition invalid_decision : exc :=
  HTTPException 502 (Msg "Pole 'decision' musi być 'tak' lub 'nie'").

Definition invalid_sources : exc :=
  HTTPException 502 (Msg "Pole 'sources' musi być listą (max 10)").

(** [parsed] is [None], a boolean or a number. *)
Definition scalar (parsed : pyval) : Prop :=
  match parsed with
  | PyNone | PyBool _ | PyInt _ | PyFloat _ => True
  | PyStr _ | PyList _ | PyDict _ => False
  end.

(** An [HTTPException] with status 502. *)
Definition is_502 (e : exc) : Prop := ∃ detail, e = HTTPException 502 detail.

(** The state after one more provider call. *)
Definition logged (s : state) (c : call) : state :=
  {| files := files s; calls := (calls s ++ [c])%list |}.

(** What the handler yields once the model's answer has been parsed. *)
Definition validated (prefix : string) (parsed : pyval) : outcome pyval :=
  match schema_check parsed with
  | Return _ => Return parsed
  | Raise e => Raise (surfaced prefix e)
  end.

(** The environment variable [name] holds a non-empty value. *)
Definition key_set (w : World) (name : string) : Prop :=
  unset (getenv w name) = false.

(** The inference provider answers [req] with a successful response whose
    message content is the non-empty text [c]. *)
Definition answers (w : World) (req : ChatRequest) (c : string) : Prop :=
  ∃ resp data,
    chat_completions w req = Return resp ∧ status_code resp < 400
    ∧ json resp = Return data ∧ message_content data = Return (PyStr c)
    ∧ Text.nonempty c = true.

(** The error of an empty extraction. *)
Definition no_content : exc :=
  HTTPException 422 (Msg "Nie udało się wydobyć treści z podanego URL.").

(** The keys of [supadata_messages]. *)
Definition mapped_codes : list Z := [400; 401; 402; 404; 429; 206; 500].

(** The schema a request carries to the provider. *)
Definition sent_schema (req : ChatRequest) : outcome pyval :=
  js <~ Py.getitem (req_response_format req) "json_schema" ;;
  Py.getitem js "schema".

(** The request reaches the upload stage: the declared type is an image
    type, the credential is set and the upload has been written to the
    file [tmp_path]. *)
Definition reaches_upload (w : World) (file : UploadFile) (tmp_path : string) : Prop :=
  unset (content_type file) = false
  ∧ Text.startswith (or_empty (content_type file)) "image/" = true
  ∧ key_set w "REALITY_DEFENDER_API_KEY"
  ∧ named_temporary_file w = Return tmp_path
  ∧ ∃ data, read file = Return data ∧ tmp_write w data = Return tt.

(** The characters of the four host names, lower-cased. *)
Definition host_char (c : ascii) : bool := Text.is_lower c || Ascii.eqb c ".".

(** A character that, in a network location, ends nothing and raises
    nothing. *)
Definition host_safe (c : ascii) : bool :=
  Text.isascii c && negb (Url.netloc_delim c) && negb (Ascii.eqb c "[")
  && negb (Ascii.eqb c "]") && negb (Url.unsafe_byte c).

(** A character of an identifier that a URL carries as it is: none of
    [/ ? # ; & % +], no tab, carriage return or line feed. *)
Definition id_char (c : ascii) : bool :=
  negb (Url.netloc_delim c || Ascii.eqb c ";" || Ascii.eqb c "&"
        || Ascii.eqb c "%" || Ascii.eqb c "+" || Url.unsafe_byte c).

Definition plain_id (id : string) : Prop :=
  Text.nonempty id = true ∧ Text.all_chars id_char id = true.

(** ** A concrete world, for examples *)

Module Demo.

Definition dq : string := String "034" EmptyString.

Definition jstr (s : string) : string := dq +:+ s +:+ dq.

Definition jfield (k v : string) : string := jstr k +:+ ":" +:+ v.

(** The text of a verdict object with the given decision and sources. *)
Definition verdict_text (decision sources extra : string) : string :=
  "{" +:+ jfield "decision" (jstr decision)
  +:+ "," +:+ jfield "summary" (jstr "...")
  +:+ "," +:+ jfield "ai_explanatation" (jstr "...")
  +:+ "," +:+ jfield "sources" sources +:+ extra +:+ "}".

Definition verdict (decision : string) (sources : pyval) : gmap string pyval :=
  list_to_map [("decision", PyStr decision); ("summary", PyStr "...");
               ("ai_explanatation", PyStr "..."); ("sources", sources)].

(** A parser that knows a handful of texts. *)
Definition loads (s : string) : foreign pyval :=
  if String.eqb s (verdict_text "nie" "[]" "")
  then Return (PyDict (verdict "nie" (PyList [])))
  else if String.eqb s (verdict_text "nie" "[]" ("," +:+ jfield "confidence" "1"))
  then Return (PyDict (<["confidence" := PyInt 1]> (verdict "nie" (PyList []))))
  else if String.eqb s (verdict_text "yes" "[]" "")
  then Return (PyDict (verdict "yes" (PyList [])))
  else if String.eqb s "5" then Return (PyInt 5)
  else Raise JSONDecodeError.

Definition lib : PyLib :=
  {| check_bracketed_host_raises := fun _ => false;
     checknetloc_raises := fun _ => false;
     unquote_escapes := fun s => s;
     json_loads := loads |}.

(** A chat response with the given status and message content. *)
Definition response (status : Z) (content : string) : Response :=
  {| status_code := status;
     text := "body";
     json := Return (Py.dict [("choices",
               PyList [Py.dict [("message", Py.dict [("content", PyStr content)])]])]) |}.

(** A world whose credentials are set, whose Supadata calls both yield
    [supadata] and whose chat call yields [chat]. *)
Definition world (supadata : foreign (option string)) (chat : foreign Response)
  : World :=
  {| getenv := fun _ => Some "secret";
     youtube_transcript := fun _ => supadata;
     web_scrape := fun _ => supadata;
     chat_completions := fun _ => chat;
     named_temporary_file := Return "/tmp/tmpq1w2e3.png";
     tmp_write := fun _ => Return tt;
     rd_init := fun _ => Return tt;
     rd_upload := fun _ => Return (Py.dict [("request_id", PyStr "req-1")]);
     rd_get_result := fun _ => (120000%N, Return (Py.dict [("status", PyStr "done")])) |}.

Definition s0 : state := {| files := ∅; calls := [] |}.

Definition image : UploadFile :=
  {| content_type := Some "image/png"; filename := Some "cat.png"; read := Return [] |}.

End Demo.

(** ** Vocabulary of the further properties *)

(** The object [d] with other values in its summary and explanation and
    another list of sources. *)
Definition with_fields (summary explanation : pyval) (srcs : list pyval)
    (d : gmap string pyval) : gmap string pyval :=
  <["summary" := summary]>
    (<["ai_explanatation" := explanation]> (<["sources" := PyList srcs]> d)).

(** The body [data] of a chat response carries no message text: it has no
    [choices]; or its first choice is an object without [message]; or that
    message is an object whose [content] is missing, [None] or empty. *)
Definition no_message_text (data : gmap string pyval) : Prop :=
  data !! "choices" = None
  ∨ ∃ choice rest,
      data !! "choices" = Some (PyList (PyDict choice :: rest))
      ∧ (choice !! "message" = None
         ∨ ∃ message,
             choice !! "message" = Some (PyDict message)
             ∧ (message !! "content" = None
                ∨ message !! "content" = Some PyNone
                ∨ message !! "content" = Some (PyStr EmptyString))).

(** The error of an answer without text. *)
Definition empty_answer : exc :=
  HTTPException 502 (Msg "Pusta odpowiedź modelu xAI").

(** One entry of the [models] list of a detection result, as the handler
    returns it: the four fields, [None] for a missing one. *)
Definition model_entry (m : gmap string pyval) : pyval :=
  Py.dict [("name", default PyNone (m !! "name"));
           ("status", default PyNone (m !! "status"));
           ("score", default PyNone (m !! "score"));
           ("metadata", default PyNone (m !! "metadata"))].

(** The error of a detection that took too long. *)
Definition detection_timeout : exc :=
  HTTPException 504 (Msg "Przekroczono czas oczekiwania na wynik Reality Defender").

(** What precedes the first [#] of a text. *)
Definition before_fragment (t : string) : string :=
  match Text.split_once "#" t with
  | Some (x, _) => x
  | None => t
  end.

(** A character that a path carries as it is: none of [? # ;], no tab,
    carriage return or line feed. *)
Definition path_char (c : ascii) : bool :=
  negb (Ascii.eqb c "?" || Ascii.eqb c "#" || Ascii.eqb c ";" || Url.unsafe_byte c).

(** A library whose parser yields [answer] for every text, and a chat
    response with a given body. *)
Module Sample.

Definition lib (answer : foreign pyval) : PyLib :=
  {| check_bracketed_host_raises := fun _ => false;
     checknetloc_raises := fun _ => false;
     unquote_escapes := fun s => s;
     json_loads := fun _ => answer |}.

Definition response (body : pyval) : Response :=
  {| status_code := 200; text := "body"; json := Return body |}.

(** A world like [Demo.world] whose detection provider answers [upload]
    to the upload and [result], after [ms] milliseconds, to the poll. *)
Definition detection (upload : foreign pyval) (ms : N) (result : foreign pyval) : World :=
  {| getenv := fun _ => Some "secret";
     youtube_transcript := fun _ => Return None;
     web_scrape := fun _ => Return None;
     chat_completions := fun _ => Raise TimeoutError;
     named_temporary_file := Return "/tmp/tmpq1w2e3.png";
     tmp_write := fun _ => Return tt;
     rd_init := fun _ => Return tt;
     rd_upload := fun _ => upload;
     rd_get_result := fun _ => (ms, result) |}.

End Sample.

(** * Properties *)

(** ** The hard schema check *)

Lemma check_required_dict keys d :
  check_required keys (PyDict d) =
  match first_missing keys d with
  | Some k => Raise (missing_field k)
  | None => Return tt
  end.
Proof.
  induction keys as [|k keys IH]; simpl; [done|].
  destruct (bool_decide (is_Some (d !! k))); simpl; done.
Qed.

Lemma first_missing_none keys d :
  first_missing keys d = None ↔ ∀ k, k ∈ keys → is_Some (d !! k).
Proof.
  unfold first_missing. induction keys as [|k keys IH]; simpl.
  - split; [intros _ k' Hk'; by apply elem_of_nil in Hk' | done].
  - case_bool_decide as Hk; simpl.
    + rewrite IH. split.
      * intros H k' [->|Hin]%elem_of_cons; auto.
      * intros H k' Hin. apply H. by right.
    + split; [done|]. intros H. destruct Hk. apply H. by left.
Qed.

Lemma eq_str_true x s : Py.eq_str x s = true ↔ x = PyStr s.
Proof.
  destruct x; simpl; try (split; [discriminate|discriminate]).
  rewrite String.eqb_eq. split; [by intros ->|by intros [= ->]].
Qed.

Lemma decision_test d :
  (Py.eq_str (default PyNone (d !! "decision")) "tak"
   || Py.eq_str (default PyNone (d !! "decision")) "nie") = true ↔ decision_ok d.
Proof.
  unfold decision_ok. rewrite orb_true_iff, !eq_str_true.
  destruct (d !! "decision") as [x|]; simpl.
  - split; (intros [H|H]; [left|right]; congruence).
  - split; intros [H|H]; discriminate.
Qed.

Lemma sources_test d : sources_test_b d = true ↔ sources_ok d.
Proof.
  unfold sources_test_b, sources_ok.
  destruct (d !! "sources") as [[| | | | |l|]|] eqn:E;
    try (split; [discriminate | by intros (l' & [=] & _)]).
  rewrite negb_true_iff, Z.ltb_ge. split.
  - intros H. exists l. split; [done|lia].
  - intros (l' & [= <-] & H). lia.
Qed.

(** The check on an object, as a decision list: the first failure wins. *)
Lemma schema_check_dict d :
  schema_check (PyDict d) =
  match first_missing required d with
  | Some k => Raise (missing_field k)
  | None =>
      if decision_test_b d
      then if sources_test_b d then Return tt else Raise invalid_sources
      else Raise invalid_decision
  end.
Proof.
  unfold schema_check. rewrite check_required_dict.
  destruct (first_missing required d) eqn:Hm; simpl; [done|].
  unfold decision_test_b, sources_test_b, default.
  destruct (Py.eq_str _ "tak" || Py.eq_str _ "nie"); simpl; [|done].
  destruct (d !! "sources") as [[| | | | |l|]|] eqn:E; simpl; try done.
  by destruct (10 <? Z.of_nat (length l)).
Qed.

(** A value that is not an object never passes. *)
Lemma schema_check_not_dict parsed :
  schema_check parsed = Return tt → ∃ d, parsed = PyDict d.
Proof.
  destruct parsed; try (by eauto); unfold schema_check;
    destruct (check_required required _) as [[]|e]; simpl; discriminate.
Qed.

Lemma schema_check_ok d : verdict_shape d → schema_check (PyDict d) = Return tt.
Proof.
  intros (Hr & Hd & Hs). rewrite schema_check_dict.
  apply first_missing_none in Hr. rewrite Hr.
  apply decision_test in Hd. unfold decision_test_b. rewrite Hd.
  apply sources_test in Hs. by rewrite Hs.
Qed.

Lemma schema_check_sound parsed :
  schema_check parsed = Return tt → ∃ d, parsed = PyDict d ∧ verdict_shape d.
Proof.
  intros H. destruct (schema_check_not_dict _ H) as [d ->].
  exists d. split; [done|].
  rewrite schema_check_dict in H.
  destruct (first_missing required d) eqn:Hm; [discriminate|].
  destruct (decision_test_b d) eqn:Hd; [|discriminate].
  destruct (sources_test_b d) eqn:Hs; [|discriminate].
  split; [exact (proj1 (first_missing_none required d) Hm)|].
  split; [by apply decision_test | by apply sources_test].
Qed.

(** ** The analysis stage of the two textual endpoints *)

Section Analysis.
Context (lib : PyLib) (w : World).

Lemma text_analysis_parsed api_key text_ c parsed s :
  answers w (chat_request api_key true text_) c →
  json_loads lib c = Return parsed →
  M.try_except (text_analysis lib w api_key text_)
    (reraise_or_502 "Błąd podczas analizy: ") s
  = (validated "Błąd podczas analizy: " parsed,
     logged s (CallChat (chat_request api_key true text_))).
Proof.
  intros (resp & data & Hresp & Hst & Hjson & Hc & Hne) Hload.
  unfold M.try_except, text_analysis, M.bind, M.provider. rewrite Hresp. simpl.
  destruct (400 <=? status_code resp) eqn:E; [lia|].
  unfold M.of_foreign, M.of_outcome, M.try_except. rewrite Hjson. simpl. rewrite Hc. simpl.
  rewrite Hne. simpl. rewrite Hload. simpl.
  unfold validated, logged. by destruct (schema_check parsed) as [[]|e].
Qed.

Lemma link_analysis_parsed xai_key content c parsed s :
  answers w (chat_request xai_key false content) c →
  json_loads lib c = Return parsed →
  M.try_except (link_analysis lib w xai_key content)
    (reraise_or_502 "Błąd podczas analizy: ") s
  = (validated "Błąd podczas analizy: " parsed,
     logged s (CallChat (chat_request xai_key false content))).
Proof.
  intros (resp & data & Hresp & Hst & Hjson & Hc & Hne) Hload.
  unfold M.try_except, link_analysis, M.bind, M.provider. rewrite Hresp. simpl.
  destruct (400 <=? status_code resp) eqn:E; [lia|].
  unfold M.of_foreign, M.of_outcome. rewrite Hjson. simpl. rewrite Hc. simpl.
  rewrite Hne. simpl. rewrite Hload. simpl.
  unfold validated, logged. by destruct (schema_check parsed) as [[]|e].
Qed.

End Analysis.

(** ** Inversion of the handlers: what a returned verdict went through *)

Section Inversion.
Context (lib : PyLib) (w : World).

Lemma text_analysis_returns api_key text_ s v s' :
  text_analysis lib w api_key text_ s = (Return v, s') →
  schema_check v = Return tt.
Proof.
  unfold text_analysis, M.bind, M.provider, M.of_foreign, M.of_outcome,
    M.try_except, M.raise, M.ret.
  intros H. repeat case_match; simplify_eq/=; try done.
  all: repeat case_match; simplify_eq/=; try done.
  all: by match goal with H : schema_check _ = Return ?u |- _ => destruct u end.
Qed.

Lemma verify_text_returns text_ s v :
  fst (verify_text_disinfo lib w text_ s) = Return v → schema_check v = Return tt.
Proof.
  unfold verify_text_disinfo, M.try_except, reraise_or_502, M.raise.
  destruct (unset _); simpl; [done|].
  destruct (text_analysis _ _ _ _ _) as [[v'|e] s'] eqn:E; simpl; [|done].
  intros [= ->]. eapply text_analysis_returns, E.
Qed.

Lemma link_analysis_returns xai_key content s v s' :
  link_analysis lib w xai_key content s = (Return v, s') →
  schema_check v = Return tt.
Proof.
  unfold link_analysis, M.bind, M.provider, M.of_foreign, M.of_outcome,
    M.raise, M.ret.
  intros H. repeat case_match; simplify_eq/=; try done.
  all: repeat case_match; simplify_eq/=; try done.
  all: by match goal with H : schema_check _ = Return ?u |- _ => destruct u end.
Qed.

Lemma verify_link_returns url s v :
  fst (verify_link lib w url s) = Return v → schema_check v = Return tt.
Proof.
  unfold verify_link, M.try_except, reraise_or_502, M.raise, M.bind.
  destruct (unset _); simpl; [done|].
  destruct (unset _); simpl; [done|].
  destruct (link_content _ _ _ _) as [[content|e] s1]; simpl; [|done].
  destruct (link_analysis _ _ _ _ _) as [[v'|e] s'] eqn:E; simpl; [|done].
  intros [= ->]. eapply link_analysis_returns, E.
Qed.

End Inversion.

(** ** The extraction stage of [verify_link] *)

Section Extraction.
Context (lib : PyLib) (w : World).

(** The three ways the extraction block ends. *)
Lemma link_content_cases url s :
  link_content lib w url s =
  (match snd (supadata_call lib w url) with
   | Return c =>
       if Text.nonempty (Text.strip (or_empty c))
       then Return (or_empty c) else Raise no_content
   | Raise e => Raise (on_extraction_error (Err e))
   end,
   logged s (fst (supadata_call lib w url))).
Proof.
  unfold link_content, M.try_except, M.bind, M.provider, logged.
  destruct (snd (supadata_call lib w url)) as [c|e]; simpl; [|done].
  by destruct (Text.nonempty _).
Qed.

Lemma verify_link_cases url s :
  key_set w "SUPADATA_API_KEY" → key_set w "XAI_API_KEY" →
  verify_link lib w url s =
  match link_content lib w url s with
  | (Return content, s') =>
      M.try_except (link_analysis lib w (or_empty (getenv w "XAI_API_KEY")) content)
        (reraise_or_502 "Błąd podczas analizy: ") s'
  | (Raise e, s') => (Raise e, s')
  end.
Proof.
  unfold key_set, verify_link. intros -> ->. unfold M.bind.
  by destruct (link_content lib w url s) as [[c|e] s'].
Qed.

End Extraction.

(** ** Claims about the validator *)

Lemma verify_text_parsed lib w text_ c parsed s :
  key_set w "XAI_API_KEY" →
  answers w (chat_request (or_empty (getenv w "XAI_API_KEY")) true text_) c →
  json_loads lib c = Return parsed →
  fst (verify_text_disinfo lib w text_ s) = validated "Błąd podczas analizy: " parsed.
Proof.
  unfold key_set, verify_text_disinfo. intros -> Ha Hl.
  by rewrite (text_analysis_parsed lib w _ _ c parsed s Ha Hl).
Qed.

Lemma verify_link_parsed lib w url content c parsed s s' :
  key_set w "SUPADATA_API_KEY" → key_set w "XAI_API_KEY" →
  link_content lib w url s = (Return content, s') →
  answers w (chat_request (or_empty (getenv w "XAI_API_KEY")) false content) c →
  json_loads lib c = Return parsed →
  fst (verify_link lib w url s) = validated "Błąd podczas analizy: " parsed.
Proof.
  intros Hk1 Hk2 Hc Ha Hl. rewrite verify_link_cases by done. rewrite Hc.
  by rewrite (link_analysis_parsed lib w _ _ c parsed s' Ha Hl).
Qed.

Lemma validated_shape prefix d :
  verdict_shape d → validated prefix (PyDict d) = Return (PyDict d).
Proof. intros H. unfold validated. by rewrite schema_check_ok. Qed.

Lemma verify_text_returns_shape lib w text_ c d s :
  json_loads lib c = Return (PyDict d) → verdict_shape d →
  key_set w "XAI_API_KEY" →
  answers w (chat_request (or_empty (getenv w "XAI_API_KEY")) true text_) c →
  fst (verify_text_disinfo lib w text_ s) = Return (PyDict d).
Proof.
  intros Hl Hd Hk Ha. rewrite (verify_text_parsed _ _ _ _ _ _ Hk Ha Hl).
  by apply validated_shape.
Qed.

Lemma verify_link_returns_shape lib w url c d s content s' :
  json_loads lib c = Return (PyDict d) → verdict_shape d →
  key_set w "SUPADATA_API_KEY" → key_set w "XAI_API_KEY" →
  link_content lib w url s = (Return content, s') →
  answers w (chat_request (or_empty (getenv w "XAI_API_KEY")) false content) c →
  fst (verify_link lib w url s) = Return (PyDict d).
Proof.
  intros Hl Hd Hk1 Hk2 Hc Ha.
  rewrite (verify_link_parsed _ _ _ _ _ _ _ _ Hk1 Hk2 Hc Ha Hl).
  by apply validated_shape.
Qed.

(** C2.  An answer that parses to an object with the four required fields,
    a decision that is one of the two accepted tokens and a list of at most
    ten sources is returned as it is by both textual endpoints; and whatever
    either endpoint returns is such an object: no other value is ever
    returned. *)
Theorem validator_round_trip
    (lib : PyLib) (w : World) (text_ url c : string) (d : gmap string pyval)
    (s : state) :
  json_loads lib c = Return (PyDict d) →
  verdict_shape d →
  (key_set w "XAI_API_KEY" →
   answers w (chat_request (or_empty (getenv w "XAI_API_KEY")) true text_) c →
   fst (verify_text_disinfo lib w text_ s) = Return (PyDict d))
  ∧ (key_set w "SUPADATA_API_KEY" → key_set w "XAI_API_KEY" →
     ∀ content s',
       link_content lib w url s = (Return content, s') →
       answers w (chat_request (or_empty (getenv w "XAI_API_KEY")) false content) c →
       fst (verify_link lib w url s) = Return (PyDict d))
  ∧ (∀ v,
       fst (verify_text_disinfo lib w text_ s) = Return v
       ∨ fst (verify_link lib w url s) = Return v →
       ∃ d', v = PyDict d' ∧ verdict_shape d').
Proof.
  intros Hl Hd. split; [|split].
  - intros Hk Ha. by eapply verify_text_returns_shape.
  - intros Hk1 Hk2 content s' Hc Ha. by eapply verify_link_returns_shape.
  - intros v [H|H]; apply schema_check_sound.
    + eapply verify_text_returns, H.
    + eapply verify_link_returns, H.
Qed.

Lemma demo_answers supadata content req :
  Text.nonempty content = true →
  answers (Demo.world supadata (Return (Demo.response 200 content))) req content.
Proof.
  intros H. exists (Demo.response 200 content). eexists.
  split; [done|]. split; [done|]. split; [done|]. split; [|done].
  by vm_compute.
Qed.

Lemma demo_verdict_shape : verdict_shape (Demo.verdict "nie" (PyList [])).
Proof.
  split; [|split].
  - exact (proj1 (first_missing_none required (Demo.verdict "nie" (PyList []))) eq_refl).
  - right. by vm_compute.
  - exists []. split; [by vm_compute | simpl; lia].
Qed.

Lemma validator_round_trip_witness :
  fst (verify_text_disinfo Demo.lib
         (Demo.world (Return None)
            (Return (Demo.response 200 (Demo.verdict_text "nie" "[]" ""))))
         "Ziemia jest płaska." Demo.s0)
  = Return (PyDict (Demo.verdict "nie" (PyList []))).
Proof.
  refine (proj1 (validator_round_trip Demo.lib _ _ "" (Demo.verdict_text "nie" "[]" "")
                   _ Demo.s0 eq_refl demo_verdict_shape) _ _).
  - reflexivity.
  - apply demo_answers. reflexivity.
Defined.

Lemma first_missing_ext keys d d' :
  (∀ k, k ∈ keys → d' !! k = d !! k) → first_missing keys d' = first_missing keys d.
Proof.
  unfold first_missing. induction keys as [|k keys IH]; intros H; simpl; [done|].
  rewrite H by (by left). rewrite IH; [done|]. intros k' Hk'. apply H. by right.
Qed.

(** The check reads the four required fields only. *)
Lemma schema_check_other_field d k x :
  k ∉ required → schema_check (PyDict (<[k := x]> d)) = schema_check (PyDict d).
Proof.
  intros Hk. rewrite !schema_check_dict.
  assert (Hreq : ∀ k', k' ∈ required → <[k := x]> d !! k' = d !! k').
  { intros k' Hk'. apply lookup_insert_ne. by intros ->. }
  rewrite (first_missing_ext required d (<[k := x]> d) Hreq). unfold decision_test_b, sources_test_b.
  rewrite !Hreq; [done| |]; unfold required; set_solver.
Qed.

Lemma verdict_shape_other_field d k x :
  k ∉ required → verdict_shape d → verdict_shape (<[k := x]> d).
Proof.
  intros Hk Hd. apply schema_check_ok in Hd.
  rewrite <-(schema_check_other_field d k x Hk) in Hd.
  apply schema_check_sound in Hd as (d' & [= <-] & Hd'). done.
Qed.

(** C5, the claim as stated fails: an answer with a fifth field,
    [confidence], passes the client-side check of both endpoints and is
    returned with that field. *)
Lemma extra_field_is_returned :
  let d := <["confidence" := PyInt 1]> (Demo.verdict "nie" (PyList [])) in
  let answer := Demo.verdict_text "nie" "[]" ("," +:+ Demo.jfield "confidence" "1") in
  let w := Demo.world (Return (Some "tekst strony")) (Return (Demo.response 200 answer)) in
  d !! "confidence" = Some (PyInt 1)
  ∧ json_loads Demo.lib answer = Return (PyDict d)
  ∧ fst (verify_text_disinfo Demo.lib w "Ziemia jest płaska." Demo.s0) = Return (PyDict d)
  ∧ fst (verify_link Demo.lib w "https://example.com/news" Demo.s0) = Return (PyDict d).
Proof. cbv zeta. split; [|split; [|split]]; by vm_compute. Qed.

(** C5, amended.  The client-side check looks at the four required fields
    only: an answer that has them, with an accepted decision and a list of
    at most ten sources, is returned by both endpoints together with any
    other field [k] it carries.  That no other field is allowed is only
    said to the provider, in the schema of the request
    ([additionalProperties] is [False], [strict] is [True]). *)
Theorem extra_fields_not_checked
    (lib : PyLib) (w : World) (text_ url c k : string) (x : pyval)
    (d : gmap string pyval) (s : state) :
  k ∉ required →
  verdict_shape d →
  json_loads lib c = Return (PyDict (<[k := x]> d)) →
  (key_set w "XAI_API_KEY" →
   answers w (chat_request (or_empty (getenv w "XAI_API_KEY")) true text_) c →
   fst (verify_text_disinfo lib w text_ s) = Return (PyDict (<[k := x]> d)))
  ∧ (key_set w "SUPADATA_API_KEY" → key_set w "XAI_API_KEY" →
     ∀ content s',
       link_content lib w url s = (Return content, s') →
       answers w (chat_request (or_empty (getenv w "XAI_API_KEY")) false content) c →
       fst (verify_link lib w url s) = Return (PyDict (<[k := x]> d)))
  ∧ (∀ key described content,
       (schema <~ sent_schema (chat_request key described content) ;;
        Py.getitem schema "additionalProperties") = Return (PyBool false)
       ∧ (js <~ Py.getitem (req_response_format (chat_request key described content))
                  "json_schema" ;;
          Py.getitem js "strict") = Return (PyBool true)).
Proof.
  intros Hk Hd Hl.
  pose proof (verdict_shape_other_field d k x Hk Hd) as Hd'.
  split; [|split].
  - intros Hk' Ha. by eapply verify_text_returns_shape.
  - intros Hk1 Hk2 content s' Hc Ha. by eapply verify_link_returns_shape.
  - intros key [] content; split; by vm_compute.
Qed.

Lemma extra_fields_not_checked_witness :
  fst (verify_text_disinfo Demo.lib
         (Demo.world (Return None)
            (Return (Demo.response 200
               (Demo.verdict_text "nie" "[]" ("," +:+ Demo.jfield "confidence" "1")))))
         "Ziemia jest płaska." Demo.s0)
  = Return (PyDict (<["confidence" := PyInt 1]> (Demo.verdict "nie" (PyList [])))).
Proof.
  refine (proj1 (extra_fields_not_checked Demo.lib _ _ ""
                   (Demo.verdict_text "nie" "[]" ("," +:+ Demo.jfield "confidence" "1"))
                   "confidence" (PyInt 1) _ Demo.s0 _ demo_verdict_shape eq_refl) _ _).
  - unfold required. intros H. repeat (apply elem_of_cons in H as [H|H]; [discriminate|]).
    by apply elem_of_nil in H.
  - reflexivity.
  - apply demo_answers. reflexivity.
Defined.

Lemma validated_invalid_decision prefix d :
  has_required d →
  validated prefix (PyDict d) = Raise invalid_decision ↔ ¬ decision_ok d.
Proof.
  intros Hr. unfold validated. rewrite schema_check_dict.
  rewrite (proj2 (first_missing_none required d) Hr).
  rewrite <-decision_test. fold (decision_test_b d).
  destruct (decision_test_b d); [|split; [by intros _ ?|done]].
  split; [|by intros []]. by destruct (sources_test_b d).
Qed.

(** C10.  For an answer that parses to an object with the four required
    fields, each textual endpoint fails with the invalid-decision error
    exactly when the [decision] field is not the string [tak] or the string
    [nie]; so the tokens [yes], [no] and [Tak] are rejected with that
    error. *)
Theorem decision_tokens
    (lib : PyLib) (w : World) (text_ url c : string) (d : gmap string pyval)
    (s : state) :
  json_loads lib c = Return (PyDict d) →
  has_required d →
  (key_set w "XAI_API_KEY" →
   answers w (chat_request (or_empty (getenv w "XAI_API_KEY")) true text_) c →
   (fst (verify_text_disinfo lib w text_ s) = Raise invalid_decision ↔ ¬ decision_ok d))
  ∧ (key_set w "SUPADATA_API_KEY" → key_set w "XAI_API_KEY" →
     ∀ content s',
       link_content lib w url s = (Return content, s') →
       answers w (chat_request (or_empty (getenv w "XAI_API_KEY")) false content) c →
       (fst (verify_link lib w url s) = Raise invalid_decision ↔ ¬ decision_ok d))
  ∧ (∀ token, token ∈ ["yes"; "no"; "Tak"] →
       d !! "decision" = Some (PyStr token) → ¬ decision_ok d).
Proof.
  intros Hl Hr. split; [|split].
  - intros Hk Ha. rewrite (verify_text_parsed _ _ _ _ _ _ Hk Ha Hl).
    by apply validated_invalid_decision.
  - intros Hk1 Hk2 content s' Hc Ha.
    rewrite (verify_link_parsed _ _ _ _ _ _ _ _ Hk1 Hk2 Hc Ha Hl).
    by apply validated_invalid_decision.
  - intros token Ht Hd [H|H]; rewrite Hd in H; injection H as ->;
      repeat (apply elem_of_cons in Ht as [Ht|Ht]; [discriminate|]);
      by apply elem_of_nil in Ht.
Qed.

Lemma decision_tokens_witness :
  fst (verify_text_disinfo Demo.lib
         (Demo.world (Return None)
            (Return (Demo.response 200 (Demo.verdict_text "yes" "[]" ""))))
         "Ziemia jest płaska." Demo.s0)
  = Raise invalid_decision.
Proof.
  pose proof (decision_tokens Demo.lib
                (Demo.world (Return None)
                   (Return (Demo.response 200 (Demo.verdict_text "yes" "[]" ""))))
                "Ziemia jest płaska." "" (Demo.verdict_text "yes" "[]" "")
                (Demo.verdict "yes" (PyList [])) Demo.s0 eq_refl
                (proj1 (first_missing_none required (Demo.verdict "yes" (PyList []))) eq_refl))
    as (Ht & _ & Htok).
  apply Ht.
  - reflexivity.
  - apply demo_answers. reflexivity.
  - apply (Htok "yes"); [by left | reflexivity].
Defined.

(** C8, the failing input.  When the model's answer is not JSON,
    [verify_text_disinfo] reports malformed JSON, while [verify_link], whose
    call of [json.loads] stands outside any [try] of its own, reports the
    decoding error under the general analysis failure. *)
Theorem malformed_json_in_verify_link
    (lib : PyLib) (w : World) (text_ url c : string) (s : state) :
  json_loads lib c = Raise JSONDecodeError →
  (key_set w "XAI_API_KEY" →
   answers w (chat_request (or_empty (getenv w "XAI_API_KEY")) true text_) c →
   fst (verify_text_disinfo lib w text_ s)
   = Raise (HTTPException 502 (Msg "Model zwrócił niepoprawny JSON")))
  ∧ (key_set w "SUPADATA_API_KEY" → key_set w "XAI_API_KEY" →
     ∀ content s',
       link_content lib w url s = (Return content, s') →
       answers w (chat_request (or_empty (getenv w "XAI_API_KEY")) false content) c →
       fst (verify_link lib w url s)
       = Raise (HTTPException 502 (MsgExc "Błąd podczas analizy: " (Err JSONDecodeError)))).
Proof.
  intros Hl. split.
  - unfold key_set, verify_text_disinfo. intros -> (resp & data & Hresp & Hst & Hjson & Hc & Hne).
    unfold M.try_except, text_analysis, M.bind, M.provider. rewrite Hresp. simpl.
    destruct (400 <=? status_code resp) eqn:E; [lia|].
    unfold M.of_foreign, M.of_outcome, M.try_except. rewrite Hjson. simpl. rewrite Hc. simpl.
    rewrite Hne. simpl. by rewrite Hl.
  - intros Hk1 Hk2 content s' Hcontent (resp & data & Hresp & Hst & Hjson & Hc & Hne).
    rewrite verify_link_cases by done. rewrite Hcontent.
    unfold M.try_except, link_analysis, M.bind, M.provider. rewrite Hresp. simpl.
    destruct (400 <=? status_code resp) eqn:E; [lia|].
    unfold M.of_foreign, M.of_outcome. rewrite Hjson. simpl. rewrite Hc. simpl.
    rewrite Hne. simpl. by rewrite Hl.
Qed.

Lemma malformed_json_in_verify_link_witness :
  fst (verify_link Demo.lib
         (Demo.world (Return (Some "tekst strony")) (Return (Demo.response 200 "{")))
         "https://example.com/news" Demo.s0)
  = Raise (HTTPException 502 (MsgExc "Błąd podczas analizy: " (Err JSONDecodeError))).
Proof.
  refine (proj2 (malformed_json_in_verify_link Demo.lib _ "" _ "{" Demo.s0 eq_refl)
            _ _ "tekst strony" _ _ _).
  - reflexivity.
  - reflexivity.
  - by vm_compute.
  - apply demo_answers. reflexivity.
Defined.

(** ** Claims about the status codes of failures *)

Lemma surfaced_is_502 prefix e :
  is_Exception (Err e) = true → is_502 (surfaced prefix (Err e)).
Proof. intros H. unfold surfaced. rewrite H. by eexists. Qed.

Lemma check_required_raises keys parsed e :
  check_required keys parsed = Raise e →
  is_502 e ∨ e = Err TypeError.
Proof.
  induction keys as [|k keys IH]; simpl; [done|].
  destruct (Py.contains k parsed) as [[]|e'] eqn:E; simpl.
  - done.
  - intros [= <-]. left. by eexists.
  - intros [= <-]. right. destruct parsed; simpl in E; by simplify_eq.
Qed.

(** Whatever the check raises surfaces as a 502. *)
Lemma schema_check_raises prefix parsed e :
  schema_check parsed = Raise e → is_502 (surfaced prefix e).
Proof.
  destruct parsed as [| | | | | |d].
  7: { rewrite schema_check_dict. intros H.
       repeat case_match; simplify_eq; by eexists. }
  all: unfold schema_check;
    destruct (check_required required _) as [[]|e'] eqn:E; simpl;
    [ intros [= <-]; by apply surfaced_is_502
    | intros [= <-]; apply check_required_raises in E as [[dt ->]| ->];
      [by eexists | by apply surfaced_is_502] ].
Qed.

Lemma surfaced_err prefix err :
  is_502 (surfaced prefix (Err err)) ∨ surfaced prefix (Err err) = Err CancelledError.
Proof. destruct err; simpl; (by right) || (left; by eexists). Qed.

Lemma message_content_raises data e :
  message_content data = Raise e → ∃ err, e = Err err.
Proof.
  unfold message_content, bind_res, Py.get, Py.item0. intros H.
  repeat (case_match; simplify_eq/=); by eexists.
Qed.

Lemma loads_raises lib content e :
  loads lib content = Raise e → ∃ err, e = Err err.
Proof.
  destruct content; simpl; try (intros [= <-]; by eexists).
  destruct (json_loads lib s); simpl; [done|]. intros [= <-]. by eexists.
Qed.

(** C4, the claim as stated fails: a provider response with status 429
    surfaces as 429, not as 502, and one with status 500 surfaces as 500
    although the credential is present. *)
Lemma provider_status_passes_through :
  fst (verify_text_disinfo Demo.lib
         (Demo.world (Return None) (Return (Demo.response 429 "")))
         "Ziemia jest płaska." Demo.s0)
  = Raise (HTTPException 429 (Msg "xAI error: body"))
  ∧ fst (verify_text_disinfo Demo.lib
           (Demo.world (Return None) (Return (Demo.response 500 "")))
           "Ziemia jest płaska." Demo.s0)
    = Raise (HTTPException 500 (Msg "xAI error: body")).
Proof. split; by vm_compute. Qed.

(** C4, amended.  For a text-verification request: without the credential
    it fails with status 500; with it, a provider response whose status is
    400 or more surfaces with that same status and the provider's body in
    the detail; a failure of the validation of a parsed answer surfaces as
    502; and every failure is one of these, another 502 (the call itself
    failed, the body or the answer could not be read, the answer was empty
    or not JSON), or the cancellation of the request. *)
Theorem text_failure_statuses (lib : PyLib) (w : World) (text_ : string) (s : state) :
  let req := chat_request (or_empty (getenv w "XAI_API_KEY")) true text_ in
  let result := fst (verify_text_disinfo lib w text_ s) in
  (unset (getenv w "XAI_API_KEY") = true →
   result = Raise (HTTPException 500 (Msg "Brak konfiguracji: ustaw XAI_API_KEY")))
  ∧ (key_set w "XAI_API_KEY" →
     ∀ resp, chat_completions w req = Return resp → 400 ≤ status_code resp →
       result = Raise (HTTPException (status_code resp)
                         (Msg ("xAI error: " +:+ text resp))))
  ∧ (key_set w "XAI_API_KEY" →
     ∀ c parsed e, answers w req c → json_loads lib c = Return parsed →
       schema_check parsed = Raise e → ∃ e', result = Raise e' ∧ is_502 e')
  ∧ (∀ e, result = Raise e →
       (unset (getenv w "XAI_API_KEY") = true
        ∧ e = HTTPException 500 (Msg "Brak konfiguracji: ustaw XAI_API_KEY"))
       ∨ (∃ resp, chat_completions w req = Return resp ∧ 400 ≤ status_code resp
                  ∧ e = HTTPException (status_code resp)
                          (Msg ("xAI error: " +:+ text resp)))
       ∨ is_502 e
       ∨ e = Err CancelledError).
Proof.
  cbv zeta. split; [|split; [|split]].
  - unfold verify_text_disinfo. by intros ->.
  - unfold key_set, verify_text_disinfo. intros -> resp Hresp Hst.
    unfold M.try_except, text_analysis, M.bind, M.provider. rewrite Hresp. simpl.
    by destruct (400 <=? status_code resp) eqn:E; [|lia].
  - intros Hk c parsed e Ha Hl He.
    rewrite (verify_text_parsed _ _ _ _ _ _ Hk Ha Hl). unfold validated. rewrite He.
    eexists. split; [done|]. by eapply schema_check_raises.
  - intros e. unfold verify_text_disinfo.
    destruct (unset (getenv w "XAI_API_KEY")) eqn:Hk; simpl.
    { intros [= <-]. by left. }
    intros H. right. revert H.
    unfold M.try_except, text_analysis, M.bind, M.provider, reraise_or_502, M.raise.
    destruct (chat_completions w _) as [resp|err] eqn:Hresp; simpl.
    2: { intros [= <-]. right. apply surfaced_err. }
    destruct (400 <=? status_code resp) eqn:Hst; simpl.
    { intros [= <-]. left. exists resp. split; [done|]. split; [lia|done]. }
    unfold M.of_foreign, M.of_outcome, M.try_except.
    destruct (json resp) as [data|err]; simpl.
    2: { intros [= <-]. right. apply surfaced_err. }
    destruct (message_content data) as [content|e0] eqn:Hc; simpl.
    2: { intros [= <-]. right. apply message_content_raises in Hc as [err ->].
         apply surfaced_err. }
    destruct (Py.truthy content); simpl.
    2: { intros [= <-]. right. left. by eexists. }
    destruct (loads lib content) as [parsed|e0] eqn:Hl; simpl.
    2: { apply loads_raises in Hl as [err ->].
         destruct err; simpl; intros [= <-]; right;
           first [left; by eexists | by right]. }
    destruct (schema_check parsed) as [[]|e0] eqn:Hs; simpl; [done|].
    intros [= <-]. right. left. by eapply schema_check_raises.
Qed.

Lemma text_failure_statuses_witness :
  fst (verify_text_disinfo Demo.lib
         (Demo.world (Return None) (Return (Demo.response 403 "")))
         "Ziemia jest płaska." Demo.s0)
  = Raise (HTTPException 403 (Msg "xAI error: body")).
Proof.
  refine (proj1 (proj2 (text_failure_statuses Demo.lib
                          (Demo.world (Return None) (Return (Demo.response 403 "")))
                          "Ziemia jest płaska." Demo.s0))
            _ (Demo.response 403 "") eq_refl _).
  - reflexivity.
  - simpl. lia.
Defined.

(** ** Claims about the extraction stage *)

Lemma supadata_messages_unmapped c :
  c ∉ mapped_codes → supadata_messages !! c = None.
Proof.
  intros H. unfold supadata_messages. apply not_elem_of_list_to_map. exact H.
Qed.

Lemma verify_link_extraction_error lib w url s e :
  key_set w "SUPADATA_API_KEY" → key_set w "XAI_API_KEY" →
  snd (supadata_call lib w url) = Raise e →
  fst (verify_link lib w url s) = Raise (on_extraction_error (Err e)).
Proof.
  intros Hk1 Hk2 He. rewrite verify_link_cases by done.
  rewrite link_content_cases, He. done.
Qed.

(** C3, the claim as stated fails: a Supadata error with status 403, a code
    outside the table, surfaces with status 403, not 502. *)
Lemma unmapped_code_passes_through :
  let err := SupadataError (Some 403) None "Forbidden" in
  (403 ∉ mapped_codes)
  ∧ (fst (verify_link Demo.lib
            (Demo.world (Raise err) (Return (Demo.response 200 "")))
            "https://example.com/news" Demo.s0)
     = Raise (HTTPException 403 (MsgExc "Supadata error: " (Err err)))).
Proof.
  cbv zeta. split; [|by vm_compute].
  unfold mapped_codes. intros H.
  repeat (apply elem_of_cons in H as [H|H]; [discriminate|]). by apply elem_of_nil in H.
Qed.

(** C3, amended.  A Supadata error whose status code (its [status]
    attribute or else its [status_code] attribute) is absent or zero
    surfaces with status 502 and a detail carrying the provider's own
    message; one whose code is present and outside the table surfaces with
    the same detail and with that code as its status. *)
Theorem unmapped_supadata_error
    (lib : PyLib) (w : World) (url : string) (s : state)
    (status status_code : option Z) (message : string) :
  key_set w "SUPADATA_API_KEY" → key_set w "XAI_API_KEY" →
  snd (supadata_call lib w url) = Raise (SupadataError status status_code message) →
  let err := Err (SupadataError status status_code message) in
  let code := or_code status status_code in
  (code = None ∨ code = Some 0 →
   fst (verify_link lib w url s)
   = Raise (HTTPException 502 (MsgExc "Supadata error: " err)))
  ∧ (∀ c, code = Some c → c ≠ 0 → c ∉ mapped_codes →
       fst (verify_link lib w url s)
       = Raise (HTTPException c (MsgExc "Supadata error: " err))).
Proof.
  intros Hk1 Hk2 He. cbv zeta.
  rewrite (verify_link_extraction_error _ _ _ _ _ Hk1 Hk2 He). simpl. split.
  - by intros [-> | ->].
  - intros c -> Hc Hun. simpl. rewrite (supadata_messages_unmapped c Hun).
    unfold code_or_502. by destruct (Z.eqb_spec c 0).
Qed.

Lemma unmapped_supadata_error_witness :
  fst (verify_link Demo.lib
         (Demo.world (Raise (SupadataError None None "boom")) (Return (Demo.response 200 "")))
         "https://example.com/news" Demo.s0)
  = Raise (HTTPException 502
             (MsgExc "Supadata error: " (Err (SupadataError None None "boom")))).
Proof.
  refine (proj1 (unmapped_supadata_error Demo.lib
                   (Demo.world (Raise (SupadataError None None "boom"))
                      (Return (Demo.response 200 "")))
                   "https://example.com/news" Demo.s0 None None "boom" _ _ _) _).
  - reflexivity.
  - reflexivity.
  - by vm_compute.
  - by left.
Defined.

(** C6.  When the Supadata call of a link-verification request succeeds and
    the text it yields is empty once stripped of white space, the request
    fails with status 422, and no inference call is made. *)
Theorem empty_extraction_is_422
    (lib : PyLib) (w : World) (url : string) (s : state) (c : option string) :
  key_set w "SUPADATA_API_KEY" → key_set w "XAI_API_KEY" →
  snd (supadata_call lib w url) = Return c →
  Text.strip (or_empty c) = EmptyString →
  verify_link lib w url s
  = (Raise (HTTPException 422 (Msg "Nie udało się wydobyć treści z podanego URL.")),
     logged s (fst (supadata_call lib w url))).
Proof.
  intros Hk1 Hk2 Hc He. rewrite verify_link_cases by done.
  rewrite link_content_cases, Hc, He. done.
Qed.

Lemma empty_extraction_is_422_witness :
  fst (verify_link Demo.lib
         (Demo.world (Return (Some "   ")) (Return (Demo.response 200 "")))
         "https://example.com/news" Demo.s0)
  = Raise (HTTPException 422 (Msg "Nie udało się wydobyć treści z podanego URL.")).
Proof.
  rewrite (empty_extraction_is_422 Demo.lib
             (Demo.world (Return (Some "   ")) (Return (Demo.response 200 "")))
             "https://example.com/news" Demo.s0 (Some "   ")).
  - reflexivity.
  - reflexivity.
  - reflexivity.
  - by vm_compute.
  - by vm_compute.
Defined.

(** The analysis block makes one call, to the inference provider. *)
Lemma link_analysis_calls lib w xai_key content s :
  snd (M.try_except (link_analysis lib w xai_key content)
         (reraise_or_502 "Błąd podczas analizy: ") s)
  = logged s (CallChat (chat_request xai_key false content)).
Proof.
  unfold M.try_except, link_analysis, M.bind, M.provider, M.of_foreign,
    M.of_outcome, reraise_or_502, M.raise, M.ret, logged.
  repeat (case_match; simplify_eq/=); done.
Qed.

Lemma verify_link_calls lib w url s :
  key_set w "SUPADATA_API_KEY" → key_set w "XAI_API_KEY" →
  ∃ rest,
    calls (snd (verify_link lib w url s))
    = (calls s ++ fst (supadata_call lib w url) :: rest)%list
    ∧ ∀ c, c ∈ rest → ∃ req, c = CallChat req.
Proof.
  intros Hk1 Hk2. rewrite verify_link_cases by done. rewrite link_content_cases.
  destruct (snd (supadata_call lib w url)) as [c|e].
  - destruct (Text.nonempty _).
    + rewrite link_analysis_calls. eexists [_]. simpl. rewrite <-app_assoc.
      split; [done|]. intros c' ->%list_elem_of_singleton. by eexists.
    + exists []. split; [done|]. intros c' H. by apply elem_of_nil in H.
  - exists []. split; [done|]. intros c' H. by apply elem_of_nil in H.
Qed.

(** C1, the claim as stated fails: for a watch URL without a [v] parameter
    and for a bare /shorts/ URL, both on a YouTube host, no identifier is
    extracted, the page text is requested from the scraper, and a verdict is
    returned for it. *)
Lemma youtube_url_without_id_is_scraped :
  let answer := Demo.verdict_text "nie" "[]" "" in
  let w := Demo.world (Return (Some "tekst strony")) (Return (Demo.response 200 answer)) in
  let scraped url :=
    (Return (PyDict (Demo.verdict "nie" (PyList []))),
     {| files := ∅;
        calls := [CallScrape url; CallChat (chat_request "secret" false "tekst strony")] |}) in
  (∀ lib, ∃ r, Url.urlparse lib "https://www.youtube.com/watch" = Return r
               ∧ Text.lower (Url.netloc r) = "www.youtube.com"
               ∧ _extract_youtube_video_id lib "https://www.youtube.com/watch" = None)
  ∧ (∀ lib, ∃ r, Url.urlparse lib "https://www.youtube.com/shorts/" = Return r
                 ∧ Text.lower (Url.netloc r) = "www.youtube.com"
                 ∧ _extract_youtube_video_id lib "https://www.youtube.com/shorts/"
                   = Some EmptyString)
  ∧ verify_link Demo.lib w "https://www.youtube.com/watch" Demo.s0
    = scraped "https://www.youtube.com/watch"
  ∧ verify_link Demo.lib w "https://www.youtube.com/shorts/" Demo.s0
    = scraped "https://www.youtube.com/shorts/".
Proof.
  cbv zeta. split; [|split; [|split]].
  - intros lib. eexists. split; [by vm_compute|]. split; by vm_compute.
  - intros lib. eexists. split; [by vm_compute|]. split; by vm_compute.
  - by vm_compute.
  - by vm_compute.
Qed.

(** C1, amended.  The extraction stage makes exactly one Supadata call,
    chosen by the extracted identifier alone: a transcript request when the
    identifier is a non-empty string, and otherwise (no identifier, or an
    empty one, whatever the host) a scrape request for the URL itself.  No
    second Supadata call follows, so a failed transcript request is never
    replaced by a scrape request. *)
Theorem supadata_call_by_video_id (lib : PyLib) (w : World) (url : string) (s : state) :
  key_set w "SUPADATA_API_KEY" → key_set w "XAI_API_KEY" →
  let after := calls (snd (verify_link lib w url s)) in
  let only_chat (rest : list call) := ∀ c, c ∈ rest → ∃ req, c = CallChat req in
  (∀ video_id,
     _extract_youtube_video_id lib url = Some video_id → video_id ≠ EmptyString →
     ∃ rest, after = (calls s ++ CallTranscript video_id :: rest)%list ∧ only_chat rest)
  ∧ (_extract_youtube_video_id lib url = None
     ∨ _extract_youtube_video_id lib url = Some EmptyString →
     ∃ rest, after = (calls s ++ CallScrape url :: rest)%list ∧ only_chat rest).
Proof.
  intros Hk1 Hk2. cbv zeta.
  destruct (verify_link_calls lib w url s Hk1 Hk2) as (rest & Hcalls & Hrest).
  unfold supadata_call in Hcalls. split.
  - intros video_id Hid Hne. rewrite Hid in Hcalls.
    destruct video_id; [done|]. by exists rest.
  - intros [Hid|Hid]; rewrite Hid in Hcalls; by exists rest.
Qed.

Lemma supadata_call_by_video_id_witness :
  ∃ rest,
    calls (snd (verify_link Demo.lib
                  (Demo.world (Raise (SupadataError (Some 206) None "no transcript"))
                     (Return (Demo.response 200 "")))
                  "https://youtu.be/abc123" Demo.s0))
    = (calls Demo.s0 ++ CallTranscript "abc123" :: rest)%list
    ∧ ∀ c, c ∈ rest → ∃ req, c = CallChat req.
Proof.
  refine (proj1 (supadata_call_by_video_id Demo.lib
                   (Demo.world (Raise (SupadataError (Some 206) None "no transcript"))
                      (Return (Demo.response 200 "")))
                   "https://youtu.be/abc123" Demo.s0 _ _) "abc123" _ _).
  - reflexivity.
  - reflexivity.
  - by vm_compute.
  - discriminate.
Defined.

(** ** The temporary file of a media verification *)

Lemma model_entries_state ms s : snd (model_entries ms s) = s.
Proof.
  revert s. induction ms as [|m ms IH]; intros s; simpl; [done|].
  unfold M.bind, M.of_outcome, M.ret.
  repeat (case_match; simplify_eq/=); try done.
  all: match goal with H : model_entries _ ?s0 = (_, ?s1) |- _ =>
         pose proof (IH s0) as IH'; rewrite H in IH'; simpl in IH'; by subst
       end.
Qed.

(** The detection block, with its [except] clauses, leaves the files as
    they are. *)
Lemma detect_files w api_key tmp_path s :
  files (snd (M.try_except (detect w api_key tmp_path)
                (fun e => M.raise (on_detection_error e)) s))
  = files s.
Proof.
  unfold M.try_except, detect, M.bind, M.provider, M.of_foreign, M.of_outcome,
    M.raise, M.ret.
  repeat (case_match; simplify_eq/=); try done.
  all: match goal with H : model_entries ?ms ?s0 = (_, ?s1) |- _ =>
         pose proof (model_entries_state ms s0) as IH'; rewrite H in IH';
         simpl in IH'; by subst
       end.
Qed.

Lemma cleanup_removes tmp_path s :
  cleanup tmp_path s
  = (Return tt, {| files := delete tmp_path (files s); calls := calls s |}).
Proof.
  unfold cleanup, M.try_except, M.bind, M.exists_, M.remove, M.ret.
  case_bool_decide as H; simpl.
  - destruct H as [x ->]. done.
  - apply eq_None_not_Some in H. rewrite delete_id by done. by destruct s.
Qed.

Lemma save_upload_ok w file tmp_path data s :
  named_temporary_file w = Return tmp_path →
  read file = Return data →
  tmp_write w data = Return tt →
  save_upload w file s
  = (Return tmp_path,
     {| files := <[tmp_path := data]> (<[tmp_path := []]> (files s)); calls := calls s |}).
Proof.
  intros Hn Hr Hw. unfold save_upload, M.try_except, M.bind, M.of_foreign, M.of_outcome.
  rewrite Hn. simpl. rewrite Hr. simpl. by rewrite Hw.
Qed.

Lemma verify_image_upload_stage w file tmp_path s :
  reaches_upload w file tmp_path →
  ∃ data,
    verify_image_with_reality_defender w file s
    = M.try_finally
        (M.try_except (detect w (or_empty (getenv w "REALITY_DEFENDER_API_KEY")) tmp_path)
           (fun e => M.raise (on_detection_error e)))
        (cleanup tmp_path)
        {| files := <[tmp_path := data]> (<[tmp_path := []]> (files s)); calls := calls s |}.
Proof.
  intros (Hct & Himg & Hk & Hn & data & Hr & Hw). exists data.
  unfold verify_image_with_reality_defender. rewrite Hct, Himg. simpl.
  unfold key_set in Hk. rewrite Hk. unfold M.bind at 1.
  by rewrite (save_upload_ok w file tmp_path data s Hn Hr Hw).
Qed.

(** C9.  Once a media-verification request has reached the upload stage,
    the file written for the upload is gone when the handler ends, however
    it ends, and every other file is as it was; and when awaiting the
    detection result takes more than 90 seconds the handler ends with
    status 504. *)
Theorem temp_file_removed
    (w : World) (file : UploadFile) (tmp_path : string) (s : state) :
  reaches_upload w file tmp_path →
  let '(result, s') := verify_image_with_reality_defender w file s in
  files s' !! tmp_path = None
  ∧ (∀ p, p ≠ tmp_path → files s' !! p = files s !! p)
  ∧ (∀ upload_resp request_id,
       rd_init w (or_empty (getenv w "REALITY_DEFENDER_API_KEY")) = Return tt →
       rd_upload w tmp_path = Return upload_resp →
       Py.get upload_resp "request_id" PyNone = Return request_id →
       Py.truthy request_id = true →
       (90000 < fst (rd_get_result w request_id))%N →
       result = Raise (HTTPException 504
                         (Msg "Przekroczono czas oczekiwania na wynik Reality Defender"))).
Proof.
  intros Hreach. destruct (verify_image_upload_stage w file tmp_path s Hreach) as [data ->].
  set (s1 := {| files := _; calls := _ |}).
  unfold M.try_finally.
  destruct (M.try_except _ _ s1) as [r s2] eqn:Hbody.
  pose proof (detect_files w (or_empty (getenv w "REALITY_DEFENDER_API_KEY")) tmp_path s1)
    as Hfiles.
  rewrite Hbody in Hfiles. simpl in Hfiles.
  rewrite cleanup_removes. simpl. rewrite Hfiles. subst s1. simpl.
  split; [by rewrite lookup_delete_eq|]. split.
  - intros p Hp. by rewrite lookup_delete_ne, !lookup_insert_ne.
  - intros upload_resp request_id Hinit Hup Hid Htruthy Hlate.
    revert Hbody.
    unfold M.try_except, detect, M.bind, M.provider, M.of_foreign, M.of_outcome.
    rewrite Hinit. simpl. rewrite Hup. simpl. rewrite Hid. simpl. rewrite Htruthy. simpl.
    unfold wait_for. apply N.ltb_lt in Hlate. rewrite Hlate. simpl.
    by intros [= <- _].
Qed.

Lemma temp_file_removed_witness :
  let '(result, s') :=
    verify_image_with_reality_defender (Demo.world (Return None) (Raise TimeoutError))
      Demo.image Demo.s0 in
  files s' !! "/tmp/tmpq1w2e3.png" = None
  ∧ result = Raise (HTTPException 504
                      (Msg "Przekroczono czas oczekiwania na wynik Reality Defender")).
Proof.
  pose proof (temp_file_removed (Demo.world (Return None) (Raise TimeoutError))
                Demo.image "/tmp/tmpq1w2e3.png" Demo.s0) as H.
  destruct (verify_image_with_reality_defender _ _ _) as [result s'].
  destruct H as (Hgone & _ & Hlate).
  - repeat split; try reflexivity. exists []. split; reflexivity.
  - split; [exact Hgone|].
    apply (Hlate (Py.dict [("request_id", PyStr "req-1")]) (PyStr "req-1"));
      reflexivity.
Defined.

(** ** Facts about text *)

Module TextFacts.

Lemma all_chars_app p a b :
Text.all_chars p (a +:+ b) = Text.all_chars p a && Text.all_chars p b.
Proof. induction a as [|c a IH]; simpl; [done|]. by rewrite IH, andb_assoc. Qed.

Lemma all_chars_impl (p q : ascii → bool) s :
(∀ c, p c = true → q c = true) →
Text.all_chars p s = true → Text.all_chars q s = true.
Proof.
intros Hpq. induction s as [|c s IH]; simpl; [done|].
intros [Hc Hs]%andb_true_iff. by rewrite (Hpq c Hc), IH.
Qed.

Lemma all_chars_lower (p q : ascii → bool) s :
(∀ c, p (Text.lower_char c) = true → q c = true) →
Text.all_chars p (Text.lower s) = true → Text.all_chars q s = true.
Proof.
intros Hpq. induction s as [|c s IH]; simpl; [done|].
intros [Hc Hs]%andb_true_iff. by rewrite (Hpq c Hc), IH.
Qed.

Lemma has_char_all c s :
Text.has_char c s = negb (Text.all_chars (fun d => negb (Ascii.eqb d c)) s).
Proof.
induction s as [|d s IH]; simpl; [done|].
rewrite IH. by destruct (Ascii.eqb d c), (Text.all_chars _ s).
Qed.

Lemma has_char_none (p : ascii → bool) c s :
p c = false → Text.all_chars p s = true → Text.has_char c s = false.
Proof.
intros Hc Hs. rewrite has_char_all. apply negb_false_iff.
revert Hs. apply all_chars_impl. intros d Hd.
destruct (Ascii.eqb_spec d c) as [->|]; [congruence|done].
Qed.

Lemma remove_id p s :
Text.all_chars (fun c => negb (p c)) s = true → Text.remove p s = s.
Proof.
induction s as [|c s IH]; simpl; [done|].
intros [Hc Hs]%andb_true_iff. apply negb_true_iff in Hc. by rewrite Hc, IH.
Qed.

Lemma break_stop p a c b :
Text.all_chars (fun c => negb (p c)) a = true → p c = true →
Text.break p (a +:+ String c b) = (a, String c b).
Proof.
intros Ha Hc. induction a as [|d a IH]; simpl.
- by rewrite Hc.
- simpl in Ha. apply andb_true_iff in Ha as [Hd Ha]. apply negb_true_iff in Hd.
  by rewrite Hd, IH.
Qed.

Lemma break_none p a :
Text.all_chars (fun c => negb (p c)) a = true → Text.break p a = (a, EmptyString).
Proof.
intros Ha. induction a as [|d a IH]; simpl; [done|].
simpl in Ha. apply andb_true_iff in Ha as [Hd Ha]. apply negb_true_iff in Hd.
by rewrite Hd, IH.
Qed.

Lemma split_once_none c s : Text.has_char c s = false → Text.split_once c s = None.
Proof.
intros H. unfold Text.split_once. rewrite break_none; [done|].
rewrite has_char_all in H. apply negb_false_iff in H.
revert H. apply all_chars_impl. intros d Hd. by rewrite Ascii.eqb_sym.
Qed.

Lemma split_once_first c a b :
Text.has_char c a = false →
Text.split_once c (a +:+ String c b) = Some (a, b).
Proof.
intros H. unfold Text.split_once. rewrite break_stop; [done| |apply Ascii.eqb_refl].
rewrite has_char_all in H. apply negb_false_iff in H.
revert H. apply all_chars_impl. intros d Hd. by rewrite Ascii.eqb_sym.
Qed.

Lemma split_none c s : Text.has_char c s = false → Text.split c s = [s].
Proof.
induction s as [|d s IH]; simpl; [done|].
intros [Hd Hs]%orb_false_iff. by rewrite Hd, IH.
Qed.

Lemma replace_char_id a b s :
Text.has_char a s = false → Text.replace_char a b s = s.
Proof.
induction s as [|d s IH]; simpl; [done|].
intros [Hd Hs]%orb_false_iff. by rewrite Hd, IH.
Qed.

Lemma lstrip_id p s : Url.first_is p s = false → Text.lstrip p s = s.
Proof. destruct s; simpl; [done|]. by intros ->. Qed.

Lemma has_char_app c a b :
Text.has_char c (a +:+ b) = Text.has_char c a || Text.has_char c b.
Proof. induction a as [|d a IH]; simpl; [done|]. by rewrite IH, orb_assoc. Qed.

Lemma split_app c a b :
Text.has_char c a = false →
Text.split c (a +:+ String c b) = a :: Text.split c b.
Proof.
induction a as [|d a IH]; simpl.
- intros _. by rewrite Ascii.eqb_refl.
- intros [Hd Ha]%orb_false_iff. by rewrite Hd, IH.
Qed.

End TextFacts.

(** ** The URL classifier *)

Lemma forall_ascii (P : ascii → bool) :
  forallb (fun n => P (ascii_of_nat n)) (seq 0 256) = true → ∀ c, P c = true.
Proof.
  intros H c. rewrite forallb_forall in H.
  rewrite <-(ascii_nat_embedding c). apply H, in_seq.
  pose proof (nat_ascii_bounded c). lia.
Qed.

Lemma lower_host_safe c : host_char (Text.lower_char c) = true → host_safe c = true.
Proof.
  revert c.
  enough (H : ∀ c, implb (host_char (Text.lower_char c)) (host_safe c) = true).
  { intros c Hc. specialize (H c). by rewrite Hc in H. }
  apply forall_ascii. by vm_compute.
Qed.

Lemma host_safe_of_lower host names :
  Text.lower host ∈ names →
  forallb (Text.all_chars host_char) names = true →
  Text.all_chars host_safe host = true.
Proof.
  intros Hin Hnames. apply (TextFacts.all_chars_lower host_char); [apply lower_host_safe|].
  rewrite forallb_forall in Hnames. by apply Hnames, list_elem_of_In.
Qed.

Section UrlFacts.
Context (lib : PyLib).

(** The split of an http(s) URL whose network location is made of safe
    characters and is followed by a path. *)
Lemma urlsplit_http sch host rest :
  sch ∈ ["http"; "https"] →
  Text.all_chars host_safe host = true →
  Url.first_is (Ascii.eqb "/") rest = true →
  Text.all_chars (fun c => negb (Url.unsafe_byte c)) rest = true →
  Url.urlsplit lib (sch +:+ "://" +:+ host +:+ rest) =
  let '(url, fragment) :=
    match Text.split_once "#" rest with
    | Some (u, f) => (u, f)
    | None => (rest, EmptyString)
    end in
  let '(url, query) :=
    match Text.split_once "?" url with
    | Some (u, q) => (u, q)
    | None => (url, EmptyString)
    end in
  Return {| Url.scheme := sch; Url.netloc := host; Url.path := url;
            Url.params := EmptyString; Url.query := query;
            Url.fragment := fragment |}.
Proof.
  intros Hsch Hhost Hrest Hsafe.
  assert (Hclean : Text.remove Url.unsafe_byte (host +:+ rest) = host +:+ rest).
  { apply TextFacts.remove_id. rewrite TextFacts.all_chars_app, Hsafe, andb_true_r.
    revert Hhost. apply TextFacts.all_chars_impl. intros c.
    unfold host_safe. rewrite !andb_true_iff. tauto. }
  assert (Hbreak : Text.break Url.netloc_delim (host +:+ rest) = (host, rest)).
  { destruct rest as [|c rest]; [done|]. unfold Url.first_is in Hrest.
    apply Ascii.eqb_eq in Hrest as <-.
    apply TextFacts.break_stop; [|done].
    revert Hhost. apply TextFacts.all_chars_impl. intros c.
    unfold host_safe. rewrite !andb_true_iff. tauto. }
  assert (Hopen : Text.has_char "[" host = false).
  { apply (TextFacts.has_char_none host_safe); [done|done]. }
  assert (Hclose : Text.has_char "]" host = false).
  { apply (TextFacts.has_char_none host_safe); [done|done]. }
  assert (Hascii : Text.all_chars Text.isascii host = true).
  { revert Hhost. apply TextFacts.all_chars_impl. intros c.
    unfold host_safe. rewrite !andb_true_iff. tauto. }
  assert (Hfront :
    Url.split_scheme
      (Text.remove Url.unsafe_byte
         (Text.lstrip Url.c0_control_or_space (sch +:+ "://" +:+ host +:+ rest)))
    = (sch, "//" +:+ Text.remove Url.unsafe_byte (host +:+ rest))).
  { generalize (host +:+ rest). intros t.
    repeat (apply elem_of_cons in Hsch as [->|Hsch]); [done|done|].
    by apply elem_of_nil in Hsch. }
  unfold Url.urlsplit. rewrite Hfront, Hclean. cbv beta iota zeta.
  change (Text.startswith ("//" +:+ host +:+ rest) "//") with true.
  change (Text.drop 2 ("//" +:+ host +:+ rest)) with (host +:+ rest).
  cbv iota. rewrite Hbreak, Hopen, Hclose, Hascii. cbn [xorb andb negb].
  rewrite andb_false_r.
  destruct (Text.split_once "#" rest) as [[u f]|];
    [destruct (Text.split_once "?" u) as [[u' q]|]
    |destruct (Text.split_once "?" rest) as [[u' q]|]]; done.
Qed.

End UrlFacts.

Lemma plain_id_has_not id c :
  plain_id id → id_char c = false → Text.has_char c id = false.
Proof. intros [_ H] Hc. by apply (TextFacts.has_char_none id_char). Qed.

Lemma plain_id_safe id :
  plain_id id → Text.all_chars (fun c => negb (Url.unsafe_byte c)) id = true.
Proof.
  intros [_ H]. revert H. apply TextFacts.all_chars_impl. intros c.
  unfold id_char. rewrite negb_true_iff, !orb_false_iff. intros (_ & ->). done.
Qed.

Section Classifier.
Context (lib : PyLib).

Lemma parse_qs_v id :
  plain_id id → Url.parse_qs lib ("v=" +:+ id) !! "v" = Some [id].
Proof.
  intros Hid. unfold Url.parse_qs, Url.parse_qsl.
  change (Text.nonempty ("v=" +:+ id)) with true. cbn [negb].
  rewrite TextFacts.split_none.
  2: { rewrite TextFacts.has_char_app. by rewrite (plain_id_has_not id "&"). }
  cbn [omap list_omap].
  change ("v=" +:+ id) with ("v" +:+ String "=" id).
  rewrite (TextFacts.split_once_first "=" "v" id) by done.
  destruct Hid as [Hne Hid]. rewrite Hne.
  assert (Hplus : Text.has_char "+" id = false).
  { by apply (TextFacts.has_char_none id_char). }
  assert (Hpct : Text.has_char "%" id = false).
  { by apply (TextFacts.has_char_none id_char). }
  rewrite (TextFacts.replace_char_id "+" " " id Hplus).
  unfold Url.unquote. rewrite Hpct.
  change (Text.has_char "%" (Text.replace_char "+" " " "v")) with false.
  cbn [foldl]. rewrite lookup_empty. apply lookup_insert_eq.
Qed.

Lemma extract_watch sch host id :
  sch ∈ ["http"; "https"] → Text.lower host ∈ youtube_hosts → plain_id id →
  _extract_youtube_video_id lib (sch +:+ "://" +:+ host +:+ "/watch?v=" +:+ id) = Some id.
Proof.
  intros Hsch Hhost Hid.
  assert (Hsafe : Text.all_chars host_safe host = true).
  { apply (host_safe_of_lower host youtube_hosts); [done | by vm_compute]. }
  unfold _extract_youtube_video_id, Url.urlparse.
  rewrite (urlsplit_http lib sch host ("/watch?v=" +:+ id) Hsch Hsafe eq_refl).
  2: { rewrite TextFacts.all_chars_app, (plain_id_safe id Hid). reflexivity. }
  rewrite TextFacts.split_once_none.
  2: { rewrite TextFacts.has_char_app. by rewrite (plain_id_has_not id "#"). }
  change ("/watch?v=" +:+ id) with ("/watch" +:+ String "?" ("v=" +:+ id)).
  rewrite (TextFacts.split_once_first "?" "/watch" ("v=" +:+ id)) by done.
  cbn [Url.scheme Url.path Url.netloc Url.query].
  change (Text.has_char ";" "/watch") with false. rewrite andb_false_r.
  cbn [Url.scheme Url.path Url.netloc Url.query].
  rewrite bool_decide_eq_true_2 by done.
  change (Text.startswith "/watch" "/watch") with true. cbv iota.
  rewrite parse_qs_v by done. by destruct Hid as [-> _].
Qed.

Lemma extract_shorts sch host id :
  sch ∈ ["http"; "https"] → Text.lower host ∈ youtube_hosts → plain_id id →
  _extract_youtube_video_id lib (sch +:+ "://" +:+ host +:+ "/shorts/" +:+ id) = Some id.
Proof.
  intros Hsch Hhost Hid.
  assert (Hsafe : Text.all_chars host_safe host = true).
  { apply (host_safe_of_lower host youtube_hosts); [done | by vm_compute]. }
  unfold _extract_youtube_video_id, Url.urlparse.
  rewrite (urlsplit_http lib sch host ("/shorts/" +:+ id) Hsch Hsafe eq_refl).
  2: { rewrite TextFacts.all_chars_app, (plain_id_safe id Hid). reflexivity. }
  rewrite TextFacts.split_once_none.
  2: { rewrite TextFacts.has_char_app. by rewrite (plain_id_has_not id "#"). }
  rewrite TextFacts.split_once_none.
  2: { rewrite TextFacts.has_char_app. by rewrite (plain_id_has_not id "?"). }
  cbn [Url.scheme Url.path Url.netloc Url.query].
  rewrite TextFacts.has_char_app, (plain_id_has_not id ";" Hid eq_refl).
  change (Text.has_char ";" "/shorts/") with false. cbn [orb]. rewrite andb_false_r.
  cbn [Url.scheme Url.path Url.netloc Url.query].
  rewrite bool_decide_eq_true_2 by done.
  change (Text.startswith ("/shorts/" +:+ id) "/watch") with false.
  change (Text.startswith ("/shorts/" +:+ id) "/shorts/") with true. cbv iota.
  change ("/shorts/" +:+ id) with ("" +:+ String "/" ("shorts" +:+ String "/" id)).
  rewrite !TextFacts.split_app by done.
  rewrite TextFacts.split_none by (by apply plain_id_has_not).
  done.
Qed.

Lemma extract_youtu_be sch host id :
  sch ∈ ["http"; "https"] → Text.lower host = "youtu.be" → plain_id id →
  _extract_youtube_video_id lib (sch +:+ "://" +:+ host +:+ "/" +:+ id) = Some id.
Proof.
  intros Hsch Hhost Hid.
  assert (Hsafe : Text.all_chars host_safe host = true).
  { apply (host_safe_of_lower host ["youtu.be"]); [|by vm_compute].
    rewrite Hhost. by left. }
  unfold _extract_youtube_video_id, Url.urlparse.
  rewrite (urlsplit_http lib sch host ("/" +:+ id) Hsch Hsafe eq_refl).
  2: { rewrite TextFacts.all_chars_app, (plain_id_safe id Hid). reflexivity. }
  rewrite TextFacts.split_once_none.
  2: { rewrite TextFacts.has_char_app. by rewrite (plain_id_has_not id "#"). }
  rewrite TextFacts.split_once_none.
  2: { rewrite TextFacts.has_char_app. by rewrite (plain_id_has_not id "?"). }
  cbn [Url.scheme Url.path Url.netloc Url.query].
  rewrite TextFacts.has_char_app, (plain_id_has_not id ";" Hid eq_refl).
  change (Text.has_char ";" "/") with false. cbn [orb]. rewrite andb_false_r.
  cbn [Url.scheme Url.path Url.netloc Url.query].
  rewrite Hhost.
  rewrite bool_decide_eq_false_2.
  2: { unfold youtube_hosts. intros H.
       repeat (apply elem_of_cons in H as [H|H]; [discriminate|]).
       by apply elem_of_nil in H. }
  change (String.eqb "youtu.be" "youtu.be") with true. cbv iota.
  change (Text.lstrip (Ascii.eqb "/") ("/" +:+ id))
    with (Text.lstrip (Ascii.eqb "/") id).
  rewrite TextFacts.lstrip_id.
  2: { destruct Hid as [Hne Hid]. destruct id as [|c id]; [done|].
       simpl in Hid. apply andb_true_iff in Hid as [Hc _]. unfold Url.first_is.
       destruct (Ascii.eqb_spec "/" c) as [<-|]; [discriminate|done]. }
  rewrite TextFacts.split_none by (by apply plain_id_has_not).
  by destruct Hid as [-> _].
Qed.

Lemma extract_other_host u :
  (∀ r, Url.urlparse lib u = Return r →
        Text.lower (Url.netloc r) ∉ "youtu.be" :: youtube_hosts) →
  _extract_youtube_video_id lib u = None.
Proof.
  intros H. unfold _extract_youtube_video_id.
  destruct (Url.urlparse lib u) as [r|e]; [|done].
  specialize (H r eq_refl). apply not_elem_of_cons in H as [Hne Hnot].
  rewrite bool_decide_eq_false_2 by done.
  by apply String.eqb_neq in Hne as ->.
Qed.

End Classifier.

(** C7, the claim as stated fails: on the host youtu.be a /watch?v=ID URL
    yields [watch]; an identifier written with a [+] comes back with a
    space; and a YouTube host followed by a port is not recognised. *)
Lemma classifier_misreads_some_urls :
  (∀ lib, _extract_youtube_video_id lib "https://youtu.be/watch?v=abc123" = Some "watch")
  ∧ (∀ lib, _extract_youtube_video_id lib "https://www.youtube.com/watch?v=a+b"
            = Some "a b")
  ∧ (∀ lib, _extract_youtube_video_id lib "https://www.youtube.com:443/watch?v=abc123"
            = None).
Proof. split; [|split]; intros lib; by vm_compute. Qed.

(** C7, amended.  The classifier is a total function of the URL.  For an
    http or https URL whose network location, lower-cased, is youtube.com,
    www.youtube.com or m.youtube.com it returns ID for /watch?v=ID and for
    /shorts/ID; for one whose network location, lower-cased, is youtu.be it
    returns ID for /ID; in each case for an ID that is not empty and has
    none of the characters [/ ? # ; & % +], tab, carriage return and line
    feed.  For a URL that does not parse, or whose network location is none
    of the four names, it returns no identifier. *)
Theorem video_id_of_url (lib : PyLib) (sch host id : string) :
  sch ∈ ["http"; "https"] →
  plain_id id →
  (Text.lower host ∈ youtube_hosts →
   _extract_youtube_video_id lib (sch +:+ "://" +:+ host +:+ "/watch?v=" +:+ id) = Some id
   ∧ _extract_youtube_video_id lib (sch +:+ "://" +:+ host +:+ "/shorts/" +:+ id) = Some id)
  ∧ (Text.lower host = "youtu.be" →
     _extract_youtube_video_id lib (sch +:+ "://" +:+ host +:+ "/" +:+ id) = Some id)
  ∧ (∀ u,
       (∀ r, Url.urlparse lib u = Return r →
             Text.lower (Url.netloc r) ∉ "youtu.be" :: youtube_hosts) →
       _extract_youtube_video_id lib u = None).
Proof.
  intros Hsch Hid. split; [|split].
  - intros Hhost. split; [by apply extract_watch | by apply extract_shorts].
  - intros Hhost. by apply extract_youtu_be.
  - apply extract_other_host.
Qed.

Lemma video_id_of_url_witness :
  _extract_youtube_video_id Demo.lib "https://YouTu.be/abc123" = Some "abc123".
Proof.
  refine (proj1 (proj2 (video_id_of_url Demo.lib "https" "YouTu.be" "abc123" _ _)) _).
  - right. left.
  - split; reflexivity.
  - reflexivity.
Defined.

(** ** Further properties of the handlers *)

(** X1.  For an answer that parses to an object, both textual endpoints
    apply the checks of the hard schema check in one order, the first
    failure deciding the error: the first missing field among decision,
    summary, ai_explanatation and sources; then the decision; then the
    sources (one error for a value that is no list and for a list of more
    than ten entries); the object itself is returned when all pass. *)
Theorem schema_check_order
    (lib : PyLib) (w : World) (text_ url c : string) (d : gmap string pyval)
    (s : state) :
  json_loads lib c = Return (PyDict d) →
  let verdict :=
    match first_missing required d with
    | Some k => Raise (missing_field k)
    | None =>
        if decision_test_b d
        then if sources_test_b d then Return (PyDict d) else Raise invalid_sources
        else Raise invalid_decision
    end in
  (key_set w "XAI_API_KEY" →
   answers w (chat_request (or_empty (getenv w "XAI_API_KEY")) true text_) c →
   fst (verify_text_disinfo lib w text_ s) = verdict)
  ∧ (key_set w "SUPADATA_API_KEY" → key_set w "XAI_API_KEY" →
     ∀ content s',
       link_content lib w url s = (Return content, s') →
       answers w (chat_request (or_empty (getenv w "XAI_API_KEY")) false content) c →
       fst (verify_link lib w url s) = verdict).
Proof.
  intros Hl. cbv zeta.
  assert (Hv : validated "Błąd podczas analizy: " (PyDict d) =
               match first_missing required d with
               | Some k => Raise (missing_field k)
               | None =>
                   if decision_test_b d
                   then if sources_test_b d then Return (PyDict d)
                        else Raise invalid_sources
                   else Raise invalid_decision
               end).
  { unfold validated. rewrite schema_check_dict.
    destruct (first_missing required d); [done|].
    destruct (decision_test_b d); [|done]. by destruct (sources_test_b d). }
  split.
  - intros Hk Ha. by rewrite (verify_text_parsed _ _ _ _ _ _ Hk Ha Hl).
  - intros Hk1 Hk2 content s' Hc Ha.
    by rewrite (verify_link_parsed _ _ _ _ _ _ _ _ Hk1 Hk2 Hc Ha Hl).
Qed.

Lemma schema_check_order_witness :
  fst (verify_link Demo.lib
         (Demo.world (Return (Some "tekst strony"))
            (Return (Demo.response 200 (Demo.verdict_text "yes" "[]" ""))))
         "https://example.com/news" Demo.s0)
  = Raise invalid_decision.
Proof.
  refine (proj2 (schema_check_order Demo.lib _ "" _ (Demo.verdict_text "yes" "[]" "")
                   (Demo.verdict "yes" (PyList [])) Demo.s0 eq_refl)
            _ _ "tekst strony" _ _ _).
  - reflexivity.
  - reflexivity.
  - by vm_compute.
  - apply demo_answers. reflexivity.
Defined.

(** X2.  When the upload cannot be read, or cannot be written, after the
    temporary file has been created, the handler fails with status 500 and
    the file stays under /tmp: the clean-up belongs to the second [try]
    statement, which is not reached. *)
Theorem temp_file_left_behind
    (w : World) (file : UploadFile) (tmp_path : string) (e : error) (s : state) :
  unset (content_type file) = false →
  Text.startswith (or_empty (content_type file)) "image/" = true →
  key_set w "REALITY_DEFENDER_API_KEY" →
  named_temporary_file w = Return tmp_path →
  read file = Raise e ∨ (∃ data, read file = Return data ∧ tmp_write w data = Raise e) →
  is_Exception (Err e) = true →
  verify_image_with_reality_defender w file s
  = (Raise (HTTPException 500 (MsgExc "Nie udało się zapisać pliku: " (Err e))),
     {| files := <[tmp_path := []]> (files s); calls := calls s |}).
Proof.
  intros Hct Himg Hk Hn Hfail He.
  unfold verify_image_with_reality_defender. rewrite Hct, Himg. simpl.
  unfold key_set in Hk. rewrite Hk.
  unfold M.bind at 1, save_upload, M.try_except, M.bind, M.of_foreign, M.of_outcome.
  rewrite Hn. simpl.
  destruct Hfail as [Hr | (data & Hr & Hw)].
  - rewrite Hr. simpl. destruct e; (discriminate || done).
  - rewrite Hr. simpl. rewrite Hw. simpl. destruct e; (discriminate || done).
Qed.

Lemma temp_file_left_behind_witness :
  files (snd (verify_image_with_reality_defender
                (Demo.world (Return None) (Raise TimeoutError))
                {| content_type := Some "image/png"; filename := None;
                   read := Raise (OtherError "ClientDisconnect") |}
                Demo.s0))
  !! "/tmp/tmpq1w2e3.png" = Some [].
Proof.
  rewrite (temp_file_left_behind (Demo.world (Return None) (Raise TimeoutError))
             {| content_type := Some "image/png"; filename := None;
                read := Raise (OtherError "ClientDisconnect") |}
             "/tmp/tmpq1w2e3.png" (OtherError "ClientDisconnect") Demo.s0).
  - reflexivity.
  - reflexivity.
  - reflexivity.
  - reflexivity.
  - reflexivity.
  - by left.
  - reflexivity.
Defined.

(** X3.  When the model's answer parses to [null], a boolean or a number,
    the test [key not in parsed] raises a [TypeError], and both textual
    endpoints fail with the general analysis error, status 502, not with a
    missing-field error. *)
Theorem scalar_answer_is_analysis_error
    (lib : PyLib) (w : World) (text_ url c : string) (parsed : pyval) (s : state) :
  json_loads lib c = Return parsed →
  scalar parsed →
  let failure :=
    Raise (HTTPException 502 (MsgExc "Błąd podczas analizy: " (Err TypeError))) in
  (key_set w "XAI_API_KEY" →
   answers w (chat_request (or_empty (getenv w "XAI_API_KEY")) true text_) c →
   fst (verify_text_disinfo lib w text_ s) = failure)
  ∧ (key_set w "SUPADATA_API_KEY" → key_set w "XAI_API_KEY" →
     ∀ content s',
       link_content lib w url s = (Return content, s') →
       answers w (chat_request (or_empty (getenv w "XAI_API_KEY")) false content) c →
       fst (verify_link lib w url s) = failure).
Proof.
  intros Hl Hs. cbv zeta.
  assert (Hv : validated "Błąd podczas analizy: " parsed
               = Raise (HTTPException 502
                          (MsgExc "Błąd podczas analizy: " (Err TypeError)))).
  { by destruct parsed. }
  split.
  - intros Hk Ha. by rewrite (verify_text_parsed _ _ _ _ _ _ Hk Ha Hl).
  - intros Hk1 Hk2 content s' Hc Ha.
    by rewrite (verify_link_parsed _ _ _ _ _ _ _ _ Hk1 Hk2 Hc Ha Hl).
Qed.

Lemma scalar_answer_is_analysis_error_witness :
  fst (verify_text_disinfo Demo.lib
         (Demo.world (Return None) (Return (Demo.response 200 "5")))
         "Ziemia jest płaska." Demo.s0)
  = Raise (HTTPException 502 (MsgExc "Błąd podczas analizy: " (Err TypeError))).
Proof.
  refine (proj1 (scalar_answer_is_analysis_error Demo.lib _ _ "" "5" (PyInt 5) Demo.s0
                   eq_refl I) _ _).
  - reflexivity.
  - apply demo_answers. reflexivity.
Defined.

(** X4.  A media-verification request whose declared type is missing or is
    not an image type is rejected with status 415 before anything else
    happens: no file is written and no provider is called. *)
Theorem unsupported_media_is_415 (w : World) (file : UploadFile) (s : state) :
  unset (content_type file) = true
  ∨ Text.startswith (or_empty (content_type file)) "image/" = false →
  ∃ detail,
    verify_image_with_reality_defender w file s
    = (Raise (HTTPException 415 detail), s).
Proof.
  intros H. unfold verify_image_with_reality_defender.
  destruct H as [-> | ->]; [|rewrite orb_true_r]; by eexists.
Qed.

Lemma unsupported_media_is_415_witness :
  ∃ detail,
    verify_image_with_reality_defender (Demo.world (Return None) (Raise TimeoutError))
      {| content_type := Some "application/pdf"; filename := Some "a.pdf";
         read := Return [] |} Demo.s0
    = (Raise (HTTPException 415 detail), Demo.s0).
Proof.
  apply (unsupported_media_is_415 (Demo.world (Return None) (Raise TimeoutError))
           {| content_type := Some "application/pdf"; filename := Some "a.pdf";
              read := Return [] |} Demo.s0).
  right. reflexivity.
Defined.

(** X5.  Each textual endpoint checks its credentials before any call: when
    one is missing the request fails with status 500 and no provider has
    been called. *)
Theorem missing_credential_is_500
    (lib : PyLib) (w : World) (text_ url : string) (s : state) :
  (unset (getenv w "XAI_API_KEY") = true →
   verify_text_disinfo lib w text_ s
   = (Raise (HTTPException 500 (Msg "Brak konfiguracji: ustaw XAI_API_KEY")), s))
  ∧ (unset (getenv w "SUPADATA_API_KEY") = true →
     verify_link lib w url s
     = (Raise (HTTPException 500 (Msg "Brak konfiguracji: ustaw SUPADATA_API_KEY")), s))
  ∧ (unset (getenv w "SUPADATA_API_KEY") = false →
     unset (getenv w "XAI_API_KEY") = true →
     verify_link lib w url s
     = (Raise (HTTPException 500 (Msg "Brak konfiguracji: ustaw XAI_API_KEY")), s)).
Proof.
  unfold verify_text_disinfo, verify_link. split; [|split].
  - by intros ->.
  - by intros ->.
  - by intros -> ->.
Qed.

Lemma missing_credential_is_500_witness :
  let w := {| getenv := fun _ => None;
              youtube_transcript := fun _ => Return None;
              web_scrape := fun _ => Return None;
              chat_completions := fun _ => Raise TimeoutError;
              named_temporary_file := Raise TimeoutError;
              tmp_write := fun _ => Return tt;
              rd_init := fun _ => Return tt;
              rd_upload := fun _ => Raise TimeoutError;
              rd_get_result := fun _ => (0%N, Raise TimeoutError) |} in
  verify_link Demo.lib w "https://example.com/news" Demo.s0
  = (Raise (HTTPException 500 (Msg "Brak konfiguracji: ustaw SUPADATA_API_KEY")), Demo.s0).
Proof.
  cbv zeta.
  refine (proj1 (proj2 (missing_credential_is_500 Demo.lib _ "" _ Demo.s0)) _).
  reflexivity.
Defined.

(** ** Further properties: what the hard check leaves unchecked *)

Lemma with_fields_shape summary explanation srcs d :
  verdict_shape d → (length srcs ≤ 10)%nat →
  verdict_shape (with_fields summary explanation srcs d).
Proof.
  intros (Hr & Hd & _) Hlen. unfold with_fields. split; [|split].
  - intros k Hk.
    destruct (decide (k = "summary")) as [->|]; [rewrite lookup_insert_eq; by eexists|].
    rewrite lookup_insert_ne by done.
    destruct (decide (k = "ai_explanatation")) as [->|];
      [rewrite lookup_insert_eq; by eexists|].
    rewrite lookup_insert_ne by done.
    destruct (decide (k = "sources")) as [->|]; [rewrite lookup_insert_eq; by eexists|].
    rewrite lookup_insert_ne by done. by apply Hr.
  - unfold decision_ok. by rewrite !lookup_insert_ne by done.
  - exists srcs. split; [|done].
    rewrite !lookup_insert_ne by done. apply lookup_insert_eq.
Qed.

(** X6.  The hard check never looks at the values of [summary] and
    [ai_explanatation] nor at the entries of [sources]: an answer that has
    the four fields and an accepted decision is returned by both textual
    endpoints whatever values (a number, [None], a list) stand in the
    summary and the explanation and whatever the at most ten entries of the
    sources are. *)
Theorem field_types_not_checked
    (lib : PyLib) (w : World) (text_ url c : string) (d : gmap string pyval)
    (summary explanation : pyval) (srcs : list pyval) (s : state) :
  verdict_shape d →
  (length srcs ≤ 10)%nat →
  json_loads lib c = Return (PyDict (with_fields summary explanation srcs d)) →
  (key_set w "XAI_API_KEY" →
   answers w (chat_request (or_empty (getenv w "XAI_API_KEY")) true text_) c →
   fst (verify_text_disinfo lib w text_ s)
   = Return (PyDict (with_fields summary explanation srcs d)))
  ∧ (key_set w "SUPADATA_API_KEY" → key_set w "XAI_API_KEY" →
     ∀ content s',
       link_content lib w url s = (Return content, s') →
       answers w (chat_request (or_empty (getenv w "XAI_API_KEY")) false content) c →
       fst (verify_link lib w url s)
       = Return (PyDict (with_fields summary explanation srcs d))).
Proof.
  intros Hd Hlen Hl.
  pose proof (with_fields_shape summary explanation srcs d Hd Hlen) as Hd'.
  split.
  - intros Hk Ha. by eapply verify_text_returns_shape.
  - intros Hk1 Hk2 content s' Hc Ha. by eapply verify_link_returns_shape.
Qed.

Lemma field_types_not_checked_witness :
  let odd := with_fields (PyInt 7) PyNone [PyInt 1; PyNone; PyList []]
               (Demo.verdict "tak" (PyList [])) in
  fst (verify_text_disinfo (Sample.lib (Return (PyDict odd)))
         (Demo.world (Return None) (Return (Demo.response 200 "x")))
         "Ziemia jest płaska." Demo.s0)
  = Return (PyDict odd).
Proof.
  cbv zeta.
  refine (proj1 (field_types_not_checked
                   (Sample.lib (Return (PyDict
                      (with_fields (PyInt 7) PyNone [PyInt 1; PyNone; PyList []]
                         (Demo.verdict "tak" (PyList []))))))
                   _ _ "" "x" (Demo.verdict "tak" (PyList []))
                   (PyInt 7) PyNone [PyInt 1; PyNone; PyList []] Demo.s0 _ _ eq_refl)
            _ _).
  - split; [|split].
    + exact (proj1 (first_missing_none required (Demo.verdict "tak" (PyList []))) eq_refl).
    + left. reflexivity.
    + exists []. split; [reflexivity | simpl; lia].
  - simpl. lia.
  - reflexivity.
  - apply demo_answers. reflexivity.
Defined.

(** ** Further properties: answers without text *)

Lemma no_message_text_content data :
  no_message_text data →
  ∃ content, message_content (PyDict data) = Return content ∧ Py.truthy content = false.
Proof.
  unfold message_content, bind_res, Py.get.
  intros [Hc | (choice & rest & Hc & Hm)]; rewrite Hc; simpl.
  - rewrite lookup_empty. by eexists.
  - destruct Hm as [Hm | (message & Hm & Hcontent)]; rewrite Hm.
    + rewrite lookup_empty. by eexists.
    + destruct Hcontent as [-> | [-> | ->]]; by eexists.
Qed.

Lemma text_analysis_empty lib w api_key text_ resp data content s :
  chat_completions w (chat_request api_key true text_) = Return resp →
  status_code resp < 400 →
  json resp = Return data →
  message_content data = Return content → Py.truthy content = false →
  M.try_except (text_analysis lib w api_key text_)
    (reraise_or_502 "Błąd podczas analizy: ") s
  = (Raise empty_answer, logged s (CallChat (chat_request api_key true text_))).
Proof.
  intros Hresp Hst Hjson Hc Ht.
  unfold M.try_except, text_analysis, M.bind, M.provider. rewrite Hresp. simpl.
  destruct (400 <=? status_code resp) eqn:E; [lia|].
  unfold M.of_foreign, M.of_outcome. rewrite Hjson. simpl. rewrite Hc. simpl.
  by rewrite Ht.
Qed.

Lemma link_analysis_empty lib w xai_key content_ resp data content s :
  chat_completions w (chat_request xai_key false content_) = Return resp →
  status_code resp < 400 →
  json resp = Return data →
  message_content data = Return content → Py.truthy content = false →
  M.try_except (link_analysis lib w xai_key content_)
    (reraise_or_502 "Błąd podczas analizy: ") s
  = (Raise empty_answer, logged s (CallChat (chat_request xai_key false content_))).
Proof.
  intros Hresp Hst Hjson Hc Ht.
  unfold M.try_except, link_analysis, M.bind, M.provider. rewrite Hresp. simpl.
  destruct (400 <=? status_code resp) eqn:E; [lia|].
  unfold M.of_foreign, M.of_outcome. rewrite Hjson. simpl. rewrite Hc. simpl.
  by rewrite Ht.
Qed.

(** X7.  When the inference provider answers with a success status and a
    JSON object that carries no message text (no [choices], a first choice
    without [message], a message without [content] or with a [content] that
    is [None] or empty), both textual endpoints fail with status 502 and
    the empty-answer message; the parser is never asked. *)
Theorem answer_without_text_is_502
    (lib : PyLib) (w : World) (text_ url : string) (resp : Response)
    (data : gmap string pyval) (s : state) :
  status_code resp < 400 →
  json resp = Return (PyDict data) →
  no_message_text data →
  (key_set w "XAI_API_KEY" →
   chat_completions w (chat_request (or_empty (getenv w "XAI_API_KEY")) true text_)
   = Return resp →
   fst (verify_text_disinfo lib w text_ s) = Raise empty_answer)
  ∧ (key_set w "SUPADATA_API_KEY" → key_set w "XAI_API_KEY" →
     ∀ content s',
       link_content lib w url s = (Return content, s') →
       chat_completions w (chat_request (or_empty (getenv w "XAI_API_KEY")) false content)
       = Return resp →
       fst (verify_link lib w url s) = Raise empty_answer).
Proof.
  intros Hst Hjson Hno.
  destruct (no_message_text_content data Hno) as (content & Hc & Ht). split.
  - unfold key_set, verify_text_disinfo. intros -> Hresp.
    by rewrite (text_analysis_empty lib w _ _ resp _ content s Hresp Hst Hjson Hc Ht).
  - intros Hk1 Hk2 content_ s' Hcontent Hresp.
    rewrite verify_link_cases by done. rewrite Hcontent.
    by rewrite (link_analysis_empty lib w _ _ resp _ content s' Hresp Hst Hjson Hc Ht).
Qed.

Lemma answer_without_text_is_502_witness :
  fst (verify_text_disinfo Demo.lib
         (Demo.world (Return None) (Return (Sample.response (PyDict ∅))))
         "Ziemia jest płaska." Demo.s0)
  = Raise empty_answer.
Proof.
  refine (proj1 (answer_without_text_is_502 Demo.lib
                   (Demo.world (Return None) (Return (Sample.response (PyDict ∅))))
                   "Ziemia jest płaska." "" (Sample.response (PyDict ∅)) ∅ Demo.s0
                   _ eq_refl _) _ eq_refl).
  - simpl. lia.
  - left. reflexivity.
  - reflexivity.
Defined.

(** ** Further properties: failures of the extraction *)

Lemma mapped_code_message c :
  c ∈ mapped_codes → ∃ m, supadata_messages !! c = Some m ∧ c ≠ 0.
Proof.
  unfold mapped_codes. intros H.
  repeat (apply elem_of_cons in H as [->|H]; [by eexists|]).
  by apply elem_of_nil in H.
Qed.

(** X8.  A Supadata error whose status code is one of the seven codes of
    the table surfaces with that code as its status and with the message
    the table gives for it; the provider's own message is not passed on,
    and no inference call is made. *)
Theorem mapped_supadata_error
    (lib : PyLib) (w : World) (url : string) (s : state)
    (status status_code : option Z) (message : string) (c : Z) :
  key_set w "SUPADATA_API_KEY" → key_set w "XAI_API_KEY" →
  snd (supadata_call lib w url) = Raise (SupadataError status status_code message) →
  or_code status status_code = Some c →
  c ∈ mapped_codes →
  ∃ m,
    supadata_messages !! c = Some m
    ∧ verify_link lib w url s
      = (Raise (HTTPException c (Msg m)), logged s (fst (supadata_call lib w url))).
Proof.
  intros Hk1 Hk2 He Hcode Hc.
  destruct (mapped_code_message c Hc) as (m & Hm & Hne). exists m. split; [done|].
  rewrite verify_link_cases by done. rewrite link_content_cases, He.
  unfold on_extraction_error. rewrite Hcode. simpl. rewrite Hm.
  unfold code_or_502. by destruct (Z.eqb_spec c 0).
Qed.

Lemma mapped_supadata_error_witness :
  ∃ m,
    supadata_messages !! 206 = Some m
    ∧ verify_link Demo.lib
        (Demo.world (Raise (SupadataError None (Some 206) "no captions"))
           (Return (Demo.response 200 "")))
        "https://youtu.be/abc123" Demo.s0
      = (Raise (HTTPException 206 (Msg m)), logged Demo.s0 (CallTranscript "abc123")).
Proof.
  apply (mapped_supadata_error Demo.lib
           (Demo.world (Raise (SupadataError None (Some 206) "no captions"))
              (Return (Demo.response 200 "")))
           "https://youtu.be/abc123" Demo.s0 None (Some 206) "no captions" 206).
  - reflexivity.
  - reflexivity.
  - by vm_compute.
  - reflexivity.
  - unfold mapped_codes. do 5 right. left.
Defined.

(** X9.  When the Supadata call fails with an exception that is not a
    [SupadataError] (a network failure, a time-out), the request fails with
    status 502 and a detail that reports the exception; the cancellation of
    the request is passed on as it is.  In both cases no inference call is
    made. *)
Theorem other_extraction_failure
    (lib : PyLib) (w : World) (url : string) (s : state) (e : error) :
  key_set w "SUPADATA_API_KEY" → key_set w "XAI_API_KEY" →
  snd (supadata_call lib w url) = Raise e →
  (∀ status status_code message, e ≠ SupadataError status status_code message) →
  verify_link lib w url s
  = (Raise (if is_Exception (Err e)
            then HTTPException 502 (MsgExc "Błąd Supadata: " (Err e))
            else Err e),
     logged s (fst (supadata_call lib w url))).
Proof.
  intros Hk1 Hk2 He Hother.
  rewrite verify_link_cases by done. rewrite link_content_cases, He.
  destruct e as [st sc msg| | | | | | | | |]; try done. by destruct (Hother st sc msg).
Qed.

Lemma other_extraction_failure_witness :
  verify_link Demo.lib
    (Demo.world (Raise (OtherError "ConnectionError")) (Return (Demo.response 200 "")))
    "https://example.com/news" Demo.s0
  = (Raise (HTTPException 502
              (MsgExc "Błąd Supadata: " (Err (OtherError "ConnectionError")))),
     logged Demo.s0 (CallScrape "https://example.com/news")).
Proof.
  apply (other_extraction_failure Demo.lib
           (Demo.world (Raise (OtherError "ConnectionError"))
              (Return (Demo.response 200 "")))
           "https://example.com/news" Demo.s0 (OtherError "ConnectionError")).
  - reflexivity.
  - reflexivity.
  - by vm_compute.
  - discriminate.
Defined.

(** ** Further properties: the calls the textual endpoints make *)

Lemma text_analysis_calls lib w api_key text_ s :
  snd (M.try_except (text_analysis lib w api_key text_)
         (reraise_or_502 "Błąd podczas analizy: ") s)
  = logged s (CallChat (chat_request api_key true text_)).
Proof.
  unfold M.try_except, text_analysis, M.bind, M.provider, M.of_foreign,
    M.of_outcome, reraise_or_502, M.raise, M.ret, logged.
  repeat (case_match; simplify_eq/=; unfold M.try_except in * ); done.
Qed.

(** X10.  With its credential set, [verify_text_disinfo] makes exactly one
    provider call whatever the outcome: the inference request that carries
    the caller's text as it is.  With both credentials set, [verify_link]
    makes its one Supadata call and then, only when the extraction yields
    text that is not empty once stripped, exactly one inference request,
    which carries the extracted text as it is (not stripped).  Neither
    touches a file. *)
Theorem calls_of_textual_endpoints
    (lib : PyLib) (w : World) (text_ url : string) (s : state) :
  (key_set w "XAI_API_KEY" →
   snd (verify_text_disinfo lib w text_ s)
   = logged s (CallChat (chat_request (or_empty (getenv w "XAI_API_KEY")) true text_)))
  ∧ (key_set w "SUPADATA_API_KEY" → key_set w "XAI_API_KEY" →
     snd (verify_link lib w url s)
     = let s1 := logged s (fst (supadata_call lib w url)) in
       match snd (supadata_call lib w url) with
       | Return c =>
           if Text.nonempty (Text.strip (or_empty c))
           then logged s1 (CallChat (chat_request (or_empty (getenv w "XAI_API_KEY"))
                                       false (or_empty c)))
           else s1
       | Raise _ => s1
       end).
Proof.
  split.
  - unfold key_set, verify_text_disinfo. intros ->. apply text_analysis_calls.
  - intros Hk1 Hk2. rewrite verify_link_cases by done. rewrite link_content_cases.
    cbv zeta. destruct (snd (supadata_call lib w url)) as [c|e]; [|done].
    destruct (Text.nonempty _); [|done]. apply link_analysis_calls.
Qed.

Lemma calls_of_textual_endpoints_witness :
  calls (snd (verify_link Demo.lib
                (Demo.world (Return (Some "  tekst strony  "))
                   (Return (Demo.response 200 "")))
                "https://example.com/news" Demo.s0))
  = [CallScrape "https://example.com/news";
     CallChat (chat_request "secret" false "  tekst strony  ")].
Proof.
  rewrite (proj2 (calls_of_textual_endpoints Demo.lib
                    (Demo.world (Return (Some "  tekst strony  "))
                       (Return (Demo.response 200 "")))
                    "" "https://example.com/news" Demo.s0)).
  - by vm_compute.
  - reflexivity.
  - reflexivity.
Defined.

(** ** Further properties: the failures of a link verification *)

Lemma link_analysis_raises lib w xai_key content s e :
  fst (M.try_except (link_analysis lib w xai_key content)
         (reraise_or_502 "Błąd podczas analizy: ") s) = Raise e →
  (∃ resp, chat_completions w (chat_request xai_key false content) = Return resp
           ∧ 400 ≤ status_code resp
           ∧ e = HTTPException (status_code resp) (Msg ("xAI error: " +:+ text resp)))
  ∨ is_502 e
  ∨ e = Err CancelledError.
Proof.
  unfold M.try_except, link_analysis, M.bind, M.provider, reraise_or_502, M.raise.
  destruct (chat_completions w _) as [resp|err] eqn:Hresp; simpl.
  2: { intros [= <-]. right. apply surfaced_err. }
  destruct (400 <=? status_code resp) eqn:Hst; simpl.
  { intros [= <-]. left. exists resp. split; [done|]. split; [lia|done]. }
  unfold M.of_foreign, M.of_outcome.
  destruct (json resp) as [data|err]; simpl.
  2: { intros [= <-]. right. apply surfaced_err. }
  destruct (message_content data) as [content_json|e0] eqn:Hc; simpl.
  2: { intros [= <-]. right. apply message_content_raises in Hc as [err ->].
       apply surfaced_err. }
  destruct (Py.truthy content_json); simpl.
  2: { intros [= <-]. right. left. by eexists. }
  destruct (loads lib content_json) as [parsed|e0] eqn:Hl; simpl.
  2: { apply loads_raises in Hl as [err ->]. intros [= <-]. right.
       apply surfaced_err. }
  destruct (schema_check parsed) as [[]|e0] eqn:Hs; simpl; [done|].
  intros [= <-]. right. left. by eapply schema_check_raises.
Qed.

(** X11.  With both credentials set, every failure of a link verification
    is one of: the error the extraction block makes of a failed Supadata
    call; status 422 for an empty extraction; the inference provider's own
    status, 400 or more, with its body in the detail; another failure of
    the analysis, status 502; or the cancellation of the request. *)
Theorem link_failure_statuses
    (lib : PyLib) (w : World) (url : string) (s : state) (e : exc) :
  key_set w "SUPADATA_API_KEY" → key_set w "XAI_API_KEY" →
  fst (verify_link lib w url s) = Raise e →
  (∃ err, snd (supadata_call lib w url) = Raise err
          ∧ e = on_extraction_error (Err err))
  ∨ (∃ c, snd (supadata_call lib w url) = Return c
          ∧ Text.strip (or_empty c) = EmptyString ∧ e = no_content)
  ∨ (∃ c resp,
       snd (supadata_call lib w url) = Return c
       ∧ chat_completions w
           (chat_request (or_empty (getenv w "XAI_API_KEY")) false (or_empty c))
         = Return resp
       ∧ 400 ≤ status_code resp
       ∧ e = HTTPException (status_code resp) (Msg ("xAI error: " +:+ text resp)))
  ∨ is_502 e
  ∨ e = Err CancelledError.
Proof.
  intros Hk1 Hk2. rewrite verify_link_cases by done. rewrite link_content_cases.
  destruct (snd (supadata_call lib w url)) as [c|err] eqn:Hcall.
  2: { intros [= <-]. left. by exists err. }
  destruct (Text.nonempty (Text.strip (or_empty c))) eqn:Hne.
  2: { intros [= <-]. right. left. exists c. split; [done|]. split; [|done].
       by destruct (Text.strip (or_empty c)). }
  intros H. apply link_analysis_raises in H as [(resp & Hresp & Hst & ->) | [H | H]].
  - right. right. left. by exists c, resp.
  - by do 3 right; left.
  - by do 4 right.
Qed.

Lemma link_failure_statuses_witness :
  let w := Demo.world (Return (Some "tekst strony")) (Return (Demo.response 503 "")) in
  let url := "https://example.com/news" in
  let e := HTTPException 503 (Msg "xAI error: body") in
  (∃ err, snd (supadata_call Demo.lib w url) = Raise err
          ∧ e = on_extraction_error (Err err))
  ∨ (∃ c, snd (supadata_call Demo.lib w url) = Return c
          ∧ Text.strip (or_empty c) = EmptyString ∧ e = no_content)
  ∨ (∃ c resp,
       snd (supadata_call Demo.lib w url) = Return c
       ∧ chat_completions w
           (chat_request (or_empty (getenv w "XAI_API_KEY")) false (or_empty c))
         = Return resp
       ∧ 400 ≤ status_code resp
       ∧ e = HTTPException (status_code resp) (Msg ("xAI error: " +:+ text resp)))
  ∨ is_502 e
  ∨ e = Err CancelledError.
Proof.
  cbv zeta.
  apply (link_failure_statuses Demo.lib
           (Demo.world (Return (Some "tekst strony")) (Return (Demo.response 503 "")))
           "https://example.com/news" Demo.s0 (HTTPException 503 (Msg "xAI error: body"))).
  - reflexivity.
  - reflexivity.
  - by vm_compute.
Defined.

(** ** Further properties: the media verification *)

Lemma model_entries_dicts ms s :
  model_entries (PyDict <$> ms) s = (Return (model_entry <$> ms), s).
Proof.
  induction ms as [|m ms IH]; simpl; [done|].
  unfold M.bind, M.of_outcome, M.ret. simpl.
  change (list_fmap (gmap string pyval) pyval PyDict ms) with (PyDict <$> ms).
  by rewrite IH.
Qed.

Lemma model_entries_raises ms s e s' :
  model_entries ms s = (Raise e, s') → ∃ err, e = Err err.
Proof.
  revert s. induction ms as [|m ms IH]; intros s; simpl; [done|].
  unfold M.bind, M.of_outcome, M.ret, Py.get.
  intros H. repeat (case_match; simplify_eq/=); try by eexists.
  all: by eapply IH.
Qed.

(** X12.  When the upload yields a request identifier and the result, an
    object, arrives within 90 seconds, the handler returns an object with
    exactly the fields [request_id], [status], [score] and [models]: the
    identifier as the upload gave it, the status and the score of the
    result ([None] when missing), and one entry per model of the result, in
    the same order, each cut down to its [name], [status], [score] and
    [metadata] ([None] when missing); a result without [models] gives an
    empty list. *)
Theorem detection_result_normalised
    (w : World) (file : UploadFile) (tmp_path : string) (s : state)
    (upload_resp request_id : pyval) (result : gmap string pyval)
    (ms : list (gmap string pyval)) :
  reaches_upload w file tmp_path →
  rd_init w (or_empty (getenv w "REALITY_DEFENDER_API_KEY")) = Return tt →
  rd_upload w tmp_path = Return upload_resp →
  Py.get upload_resp "request_id" PyNone = Return request_id →
  Py.truthy request_id = true →
  (fst (rd_get_result w request_id) < 90000)%N →
  snd (rd_get_result w request_id) = Return (PyDict result) →
  result !! "models" = Some (PyList (PyDict <$> ms))
  ∨ (result !! "models" = None ∧ ms = []) →
  fst (verify_image_with_reality_defender w file s)
  = Return (Py.dict [("request_id", request_id);
                     ("status", default PyNone (result !! "status"));
                     ("score", default PyNone (result !! "score"));
                     ("models", PyList (model_entry <$> ms))]).
Proof.
  intros Hreach Hinit Hup Hid Htruthy Hfast Hres Hms.
  destruct (verify_image_upload_stage w file tmp_path s Hreach) as [data ->].
  unfold M.try_finally, M.try_except, detect, M.bind, M.provider, M.of_foreign,
    M.of_outcome.
  rewrite Hinit. simpl. rewrite Hup. simpl. rewrite Hid. simpl. rewrite Htruthy. simpl.
  unfold wait_for. destruct (90000 <? fst (rd_get_result w request_id))%N eqn:E.
  { apply N.ltb_lt in E. lia. }
  rewrite Hres. simpl.
  destruct Hms as [Hm | [Hm ->]]; rewrite Hm; simpl.
  - change (list_fmap (gmap string pyval) pyval PyDict ms) with (PyDict <$> ms).
    rewrite model_entries_dicts. simpl. by rewrite cleanup_removes.
  - by rewrite cleanup_removes.
Qed.

Lemma detection_result_normalised_witness :
  let result : gmap string pyval :=
    list_to_map [("status", PyStr "ANALYZING");
                 ("models", PyList [PyDict (list_to_map [("name", PyStr "rd-img");
                                                         ("extra", PyInt 1)]);
                                    PyDict ∅])] in
  fst (verify_image_with_reality_defender
         (Sample.detection (Return (Py.dict [("request_id", PyStr "req-1")]))
            1500 (Return (PyDict result)))
         Demo.image Demo.s0)
  = Return (Py.dict [("request_id", PyStr "req-1");
                     ("status", PyStr "ANALYZING");
                     ("score", PyNone);
                     ("models", PyList [model_entry (list_to_map [("name", PyStr "rd-img");
                                                                   ("extra", PyInt 1)]);
                                        model_entry ∅])]).
Proof.
  cbv zeta.
  refine (detection_result_normalised
            (Sample.detection (Return (Py.dict [("request_id", PyStr "req-1")]))
               1500 (Return (PyDict _)))
            Demo.image "/tmp/tmpq1w2e3.png" Demo.s0
            (Py.dict [("request_id", PyStr "req-1")]) (PyStr "req-1") _
            [list_to_map [("name", PyStr "rd-img"); ("extra", PyInt 1)]; ∅]
            _ eq_refl eq_refl eq_refl eq_refl _ eq_refl _).
  - repeat split; try reflexivity. exists []. split; reflexivity.
  - simpl. lia.
  - left. reflexivity.
Defined.

Lemma detect_calls w api_key tmp_path s :
  rd_init w api_key = Return tt →
  calls (snd (M.try_except (detect w api_key tmp_path)
                (fun e => M.raise (on_detection_error e)) s))
  = (calls s ++ CallUpload tmp_path ::
       match rd_upload w tmp_path with
       | Return upload_resp =>
           match Py.get upload_resp "request_id" PyNone with
           | Return request_id =>
               if Py.truthy request_id then [CallGetResult request_id] else []
           | Raise _ => []
           end
       | Raise _ => []
       end)%list.
Proof.
  intros Hinit.
  unfold M.try_except, detect, M.bind, M.provider, M.of_foreign, M.of_outcome,
    M.raise, M.ret.
  rewrite Hinit. simpl.
  destruct (rd_upload w tmp_path) as [upload_resp|e]; simpl; [|done].
  destruct (Py.get upload_resp "request_id" PyNone) as [request_id|e]; simpl; [|done].
  destruct (Py.truthy request_id); simpl; [|done].
  repeat (case_match; simplify_eq/=); rewrite <-?app_assoc; try done.
  all: match goal with H : model_entries ?ms ?s0 = (_, ?s1) |- _ =>
         pose proof (model_entries_state ms s0) as IH'; rewrite H in IH';
         simpl in IH'; subst; simpl; by rewrite <-app_assoc
       end.
Qed.

(** X13.  A media verification whose declared type is an image type fails
    with status 500, before any file or call, when the credential is
    missing.  Once the upload is written and the client built, the handler
    uploads the file exactly once and then asks for the result at most
    once: only when the upload answered with an object whose [request_id]
    is truthy, and for that very identifier.  It never asks for a result
    otherwise. *)
Theorem calls_of_media_verification
    (w : World) (file : UploadFile) (tmp_path : string) (s : state) :
  (unset (content_type file) = false →
   Text.startswith (or_empty (content_type file)) "image/" = true →
   unset (getenv w "REALITY_DEFENDER_API_KEY") = true →
   verify_image_with_reality_defender w file s
   = (Raise (HTTPException 500
               (Msg "Brak konfiguracji: ustaw REALITY_DEFENDER_API_KEY")), s))
  ∧ (reaches_upload w file tmp_path →
     rd_init w (or_empty (getenv w "REALITY_DEFENDER_API_KEY")) = Return tt →
     calls (snd (verify_image_with_reality_defender w file s))
     = (calls s ++ CallUpload tmp_path ::
          match rd_upload w tmp_path with
          | Return upload_resp =>
              match Py.get upload_resp "request_id" PyNone with
              | Return request_id =>
                  if Py.truthy request_id then [CallGetResult request_id] else []
              | Raise _ => []
              end
          | Raise _ => []
          end)%list).
Proof.
  split.
  - intros Hct Himg Hk. unfold verify_image_with_reality_defender.
    by rewrite Hct, Himg, Hk.
  - intros Hreach Hinit.
    destruct (verify_image_upload_stage w file tmp_path s Hreach) as [data ->].
    unfold M.try_finally.
    destruct (M.try_except _ _ _) as [r s2] eqn:Hbody.
    rewrite cleanup_removes. simpl.
    pose proof (detect_calls w _ tmp_path
                  {| files := <[tmp_path:=data]> (<[tmp_path:=[]]> (files s));
                     calls := calls s |} Hinit) as Hcalls.
    by rewrite Hbody in Hcalls.
Qed.

Lemma calls_of_media_verification_witness :
  calls (snd (verify_image_with_reality_defender
                (Sample.detection (Return (Py.dict [("request_id", PyStr "")]))
                   10 (Return (PyDict ∅)))
                Demo.image Demo.s0))
  = [CallUpload "/tmp/tmpq1w2e3.png"].
Proof.
  rewrite (proj2 (calls_of_media_verification
                    (Sample.detection (Return (Py.dict [("request_id", PyStr "")]))
                       10 (Return (PyDict ∅)))
                    Demo.image "/tmp/tmpq1w2e3.png" Demo.s0)).
  - by vm_compute.
  - repeat split; try reflexivity. exists []. split; reflexivity.
  - reflexivity.
Defined.

Lemma detect_raises w api_key tmp_path s e s' :
  detect w api_key tmp_path s = (Raise e, s') →
  is_502 e ∨ ∃ err, e = Err err.
Proof.
  unfold detect, M.bind, M.provider, M.of_foreign, M.of_outcome, M.raise, M.ret,
    Py.get, Py.elements, lift.
  intros H. repeat (case_match; simplify_eq/=);
    try (by right; eexists); try (by left; eexists).
  all: right; by eapply model_entries_raises.
Qed.

Lemma on_detection_error_cases e :
  is_502 e ∨ (∃ err, e = Err err) →
  on_detection_error e = detection_timeout
  ∨ is_502 (on_detection_error e)
  ∨ on_detection_error e = Err CancelledError.
Proof.
  intros [[dt ->] | [err ->]].
  - right. left. by eexists.
  - destruct err; simpl; first [by left | by right; right | right; left; by eexists].
Qed.

(** X14.  Once a media verification has reached the upload stage, it fails
    in three ways only: with status 504 (a time-out, of the wait for the
    result or raised by the provider's client), with status 502 (no request
    identifier, or any other failure of the provider or of the reading of
    its answers), or by the cancellation of the request.  Whatever the
    provider raises, the caller never sees it unwrapped. *)
Theorem media_failure_statuses
    (w : World) (file : UploadFile) (tmp_path : string) (s : state) (e : exc) :
  reaches_upload w file tmp_path →
  fst (verify_image_with_reality_defender w file s) = Raise e →
  e = detection_timeout ∨ is_502 e ∨ e = Err CancelledError.
Proof.
  intros Hreach.
  destruct (verify_image_upload_stage w file tmp_path s Hreach) as [data ->].
  unfold M.try_finally, M.try_except.
  destruct (detect w _ tmp_path _) as [[v|e0] s1] eqn:Hbody; simpl.
  - rewrite cleanup_removes. simpl. done.
  - unfold M.raise. rewrite cleanup_removes. simpl. intros [= <-].
    apply on_detection_error_cases. by eapply detect_raises.
Qed.

Lemma media_failure_statuses_witness :
  let e := HTTPException 502
             (MsgExc "Błąd Reality Defender: " (Err (OtherError "ClientError"))) in
  e = detection_timeout ∨ is_502 e ∨ e = Err CancelledError.
Proof.
  cbv zeta.
  apply (media_failure_statuses
           (Sample.detection (Raise (OtherError "ClientError")) 10 (Return (PyDict ∅)))
           Demo.image "/tmp/tmpq1w2e3.png" Demo.s0).
  - repeat split; try reflexivity. exists []. split; reflexivity.
  - by vm_compute.
Defined.

(** ** Further properties: what follows the identifier in a URL *)

Module TextMore.

Lemma remove_app p a b :
  Text.remove p (a +:+ b) = Text.remove p a +:+ Text.remove p b.
Proof.
  induction a as [|c a IH]; simpl; [done|].
  destruct (p c); simpl; by rewrite IH.
Qed.

Lemma break_app p a b :
  Text.all_chars (fun c => negb (p c)) a = true →
  Text.break p (a +:+ b) = (a +:+ fst (Text.break p b), snd (Text.break p b)).
Proof.
  induction a as [|c a IH].
  - intros _. change ("" +:+ b) with b. destruct (Text.break p b); reflexivity.
  - intros [Hc Ha]%andb_true_iff. apply negb_true_iff in Hc.
    change (String c a +:+ b) with (String c (a +:+ b)).
    cbn [Text.break]. rewrite Hc, IH by done. reflexivity.
Qed.

Lemma split_once_app c a b :
  Text.has_char c a = false →
  Text.split_once c (a +:+ b)
  = match Text.split_once c b with
    | Some (x, y) => Some (a +:+ x, y)
    | None => None
    end.
Proof.
  intros H. unfold Text.split_once. rewrite break_app.
  - destruct (Text.break (Ascii.eqb c) b) as [x [|d y]]; done.
  - rewrite TextFacts.has_char_all in H. apply negb_false_iff in H.
    revert H. apply TextFacts.all_chars_impl. intros d Hd. by rewrite Ascii.eqb_sym.
Qed.

Lemma before_fragment_app a t :
  Text.has_char "#" a = false →
  before_fragment (a +:+ t) = a +:+ before_fragment t.
Proof.
  intros H. unfold before_fragment. rewrite split_once_app by done.
  by destruct (Text.split_once "#" t) as [[x y]|].
Qed.

Lemma before_fragment_at a t :
  Text.has_char "#" a = false → before_fragment (a +:+ String "#" t) = a.
Proof.
  intros H. unfold before_fragment. by rewrite TextFacts.split_once_first.
Qed.

End TextMore.

Lemma all_chars_remove p s :
  Text.all_chars (fun c => negb (p c)) (Text.remove p s) = true.
Proof.
  induction s as [|c s IH]; simpl; [done|].
  destruct (p c) eqn:Hc; simpl; [done|]. by rewrite Hc, IH.
Qed.

Lemma has_char_remove p c s :
  Text.has_char c s = false → Text.has_char c (Text.remove p s) = false.
Proof.
  induction s as [|d s IH]; simpl; [done|].
  intros [Hd Hs]%orb_false_iff. destruct (p d); simpl; [by apply IH|].
  by rewrite Hd, IH.
Qed.

Lemma path_char_safe P :
  Text.all_chars path_char P = true →
  Text.all_chars (fun c => negb (Url.unsafe_byte c)) P = true.
Proof.
  apply TextFacts.all_chars_impl. intros c. unfold path_char.
  rewrite negb_true_iff, !orb_false_iff. by intros (_ & ->).
Qed.

Lemma plain_id_path id : plain_id id → Text.all_chars path_char id = true.
Proof.
  intros [_ H]. revert H. apply TextFacts.all_chars_impl. intros c.
  unfold id_char, path_char, Url.netloc_delim.
  rewrite !negb_true_iff, !orb_false_iff. tauto.
Qed.

Section Suffix.
Context (lib : PyLib).

(** The tabs, carriage returns and line feeds of what follows the network
    location may be removed beforehand. *)
Lemma urlsplit_clean sch host rest :
  sch ∈ ["http"; "https"] →
  Url.urlsplit lib (sch +:+ "://" +:+ host +:+ rest)
  = Url.urlsplit lib (sch +:+ "://" +:+ host +:+ Text.remove Url.unsafe_byte rest).
Proof.
  intros Hsch.
  assert (Hpre : ∀ t,
    Text.remove Url.unsafe_byte
      (Text.lstrip Url.c0_control_or_space (sch +:+ "://" +:+ t))
    = sch +:+ "://" +:+ Text.remove Url.unsafe_byte t).
  { intros t. repeat (apply elem_of_cons in Hsch as [->|Hsch]); [done|done|].
    by apply elem_of_nil in Hsch. }
  unfold Url.urlsplit. rewrite !Hpre, !TextMore.remove_app.
  by rewrite (TextFacts.remove_id _ (Text.remove Url.unsafe_byte rest))
    by apply all_chars_remove.
Qed.

(** The parse of an http(s) URL whose path is followed by a query or by a
    fragment. *)
Lemma urlparse_path sch host P sep tail :
  sch ∈ ["http"; "https"] →
  Text.all_chars host_safe host = true →
  Url.first_is (Ascii.eqb "/") P = true →
  Text.all_chars path_char P = true →
  sep = "?"%char ∨ sep = "#"%char →
  ∃ f,
    Url.urlparse lib (sch +:+ "://" +:+ host +:+ P +:+ String sep tail)
    = Return {| Url.scheme := sch; Url.netloc := host; Url.path := P;
                Url.params := EmptyString;
                Url.query :=
                  if Ascii.eqb sep "?"
                  then before_fragment (Text.remove Url.unsafe_byte tail)
                  else EmptyString;
                Url.fragment := f |}.
Proof.
  intros Hsch Hhost HP Hpath Hsep.
  assert (Hhash : Text.has_char "#" P = false).
  { by apply (TextFacts.has_char_none path_char). }
  assert (Hq : Text.has_char "?" P = false).
  { by apply (TextFacts.has_char_none path_char). }
  assert (Hsemi : Text.has_char ";" P = false).
  { by apply (TextFacts.has_char_none path_char). }
  set (t := Text.remove Url.unsafe_byte tail).
  assert (Hrest : Text.remove Url.unsafe_byte (P +:+ String sep tail)
                  = P +:+ String sep t).
  { rewrite TextMore.remove_app, (TextFacts.remove_id _ P) by by apply path_char_safe.
    by destruct Hsep as [->| ->]. }
  unfold Url.urlparse.
  rewrite (urlsplit_clean sch host _ Hsch), Hrest.
  rewrite (urlsplit_http lib sch host (P +:+ String sep t) Hsch Hhost).
  2: { by destruct P. }
  2: { rewrite TextFacts.all_chars_app, (path_char_safe P Hpath).
       cbn [Text.all_chars andb]. unfold t. rewrite all_chars_remove.
       by destruct Hsep as [->| ->]. }
  destruct Hsep as [->| ->].
  - rewrite (TextMore.split_once_app "#" P (String "?" t) Hhash).
    rewrite (TextMore.split_once_app "#" "?" t eq_refl : 
      Text.split_once "#" (String "?" t) = _).
    unfold before_fragment. cbn [Ascii.eqb Bool.eqb].
    destruct (Text.split_once "#" t) as [[x y]|].
    + change ("?" +:+ x) with (String "?" x).
      rewrite (TextFacts.split_once_first "?" P x Hq).
      cbn [Url.scheme Url.path]. rewrite Hsemi, andb_false_r. by exists y.
    + rewrite (TextFacts.split_once_first "?" P t Hq).
      cbn [Url.scheme Url.path]. rewrite Hsemi, andb_false_r. by exists "".
  - rewrite (TextFacts.split_once_first "#" P t Hhash).
    rewrite (TextFacts.split_once_none "?" P Hq).
    cbn [Url.scheme Url.path]. rewrite Hsemi, andb_false_r. by exists t.
Qed.

End Suffix.

Section ClassifierMore.
Context (lib : PyLib).

Lemma parse_qs_fold_head pairs (d : gmap string (list string)) id vs :
  d !! "v" = Some (id :: vs) →
  ∃ vs',
    foldl (fun (d : gmap string (list string)) '(name, value) =>
             match d !! name with
             | Some vs => <[name := (vs ++ [value])%list]> d
             | None => <[name := [value]]> d
             end)
          d pairs !! "v" = Some (id :: vs').
Proof.
  revert d vs. induction pairs as [|[n v] pairs IH]; intros d vs Hd.
  - by exists vs.
  - cbn [foldl]. destruct (decide (n = "v")) as [->|Hn].
    + rewrite Hd. apply (IH _ (vs ++ [v])%list). by rewrite lookup_insert_eq.
    + destruct (d !! n); apply (IH _ vs); by rewrite lookup_insert_ne.
Qed.

Lemma parse_qs_v_first id t :
  plain_id id →
  ∃ vs, Url.parse_qs lib ("v=" +:+ id +:+ String "&" t) !! "v" = Some (id :: vs).
Proof.
  intros Hid. unfold Url.parse_qs, Url.parse_qsl.
  change (Text.nonempty ("v=" +:+ id +:+ String "&" t)) with true. cbn [negb].
  change ("v=" +:+ id +:+ String "&" t) with (("v=" +:+ id) +:+ String "&" t).
  rewrite TextFacts.split_app.
  2: { rewrite TextFacts.has_char_app. by rewrite (plain_id_has_not id "&"). }
  cbn [omap list_omap].
  change ("v=" +:+ id) with ("v" +:+ String "=" id).
  rewrite (TextFacts.split_once_first "=" "v" id) by done.
  destruct Hid as [Hne Hid]. rewrite Hne.
  assert (Hplus : Text.has_char "+" id = false).
  { by apply (TextFacts.has_char_none id_char). }
  assert (Hpct : Text.has_char "%" id = false).
  { by apply (TextFacts.has_char_none id_char). }
  rewrite (TextFacts.replace_char_id "+" " " id Hplus).
  unfold Url.unquote at 1 2. rewrite Hpct.
  change (Text.has_char "%" (Text.replace_char "+" " " "v")) with false.
  cbn [foldl]. rewrite lookup_empty.
  apply (parse_qs_fold_head _ _ id []). apply lookup_insert_eq.
Qed.

Lemma extract_parsed_watch u r id vs :
  Url.urlparse lib u = Return r →
  Text.lower (Url.netloc r) ∈ youtube_hosts →
  Url.path r = "/watch" →
  Url.parse_qs lib (Url.query r) !! "v" = Some (id :: vs) →
  Text.nonempty id = true →
  _extract_youtube_video_id lib u = Some id.
Proof.
  intros Hr Hhost Hpath Hv Hid. unfold _extract_youtube_video_id.
  rewrite Hr, bool_decide_eq_true_2, Hpath by done.
  change (Text.startswith "/watch" "/watch") with true. cbv iota.
  by rewrite Hv, Hid.
Qed.

Lemma extract_parsed_shorts u r id :
  Url.urlparse lib u = Return r →
  Text.lower (Url.netloc r) ∈ youtube_hosts →
  Url.path r = "/shorts/" +:+ id →
  plain_id id →
  _extract_youtube_video_id lib u = Some id.
Proof.
  intros Hr Hhost Hpath Hid. unfold _extract_youtube_video_id.
  rewrite Hr, bool_decide_eq_true_2, Hpath by done.
  change (Text.startswith ("/shorts/" +:+ id) "/watch") with false.
  change (Text.startswith ("/shorts/" +:+ id) "/shorts/") with true. cbv iota.
  change ("/shorts/" +:+ id) with ("" +:+ String "/" ("shorts" +:+ String "/" id)).
  rewrite !TextFacts.split_app by done.
  rewrite TextFacts.split_none by (by apply plain_id_has_not).
  done.
Qed.

Lemma extract_parsed_youtu_be u r id :
  Url.urlparse lib u = Return r →
  Text.lower (Url.netloc r) = "youtu.be" →
  Url.path r = "/" +:+ id →
  plain_id id →
  _extract_youtube_video_id lib u = Some id.
Proof.
  intros Hr Hhost Hpath Hid. unfold _extract_youtube_video_id.
  rewrite Hr, Hhost, Hpath.
  rewrite bool_decide_eq_false_2.
  2: { unfold youtube_hosts. intros H.
       repeat (apply elem_of_cons in H as [H|H]; [discriminate|]).
       by apply elem_of_nil in H. }
  change (String.eqb "youtu.be" "youtu.be") with true. cbv iota.
  change (Text.lstrip (Ascii.eqb "/") ("/" +:+ id))
    with (Text.lstrip (Ascii.eqb "/") id).
  rewrite TextFacts.lstrip_id.
  2: { destruct Hid as [Hne Hid]. destruct id as [|c id]; [done|].
       simpl in Hid. apply andb_true_iff in Hid as [Hc _]. unfold Url.first_is.
       destruct (Ascii.eqb_spec "/" c) as [<-|]; [discriminate|done]. }
  rewrite TextFacts.split_none by (by apply plain_id_has_not).
  by destruct Hid as [-> _].
Qed.

Lemma extract_watch_more sch host id sep tail :
  sch ∈ ["http"; "https"] → Text.lower host ∈ youtube_hosts → plain_id id →
  sep = "&"%char ∨ sep = "#"%char →
  _extract_youtube_video_id lib
    (sch +:+ "://" +:+ host +:+ "/watch?v=" +:+ id +:+ String sep tail) = Some id.
Proof.
  intros Hsch Hhost Hid Hsep.
  assert (Hsafe : Text.all_chars host_safe host = true).
  { apply (host_safe_of_lower host youtube_hosts); [done | by vm_compute]. }
  destruct (urlparse_path lib sch host "/watch" "?"
              ("v=" +:+ id +:+ String sep tail) Hsch Hsafe eq_refl eq_refl)
    as [f Hr]; [by left|].
  change (sch +:+ "://" +:+ host +:+ "/watch?v=" +:+ id +:+ String sep tail)
    with (sch +:+ "://" +:+ host +:+ "/watch"
          +:+ String "?" ("v=" +:+ id +:+ String sep tail)).
  set (t := Text.remove Url.unsafe_byte tail).
  assert (Hclean : Text.remove Url.unsafe_byte ("v=" +:+ id +:+ String sep tail)
                   = "v=" +:+ id +:+ String sep t).
  { rewrite (TextMore.remove_app _ "v="), TextMore.remove_app.
    rewrite (TextFacts.remove_id _ id) by by apply plain_id_safe.
    by destruct Hsep as [->| ->]. }
  rewrite Hclean in Hr. cbn [Ascii.eqb Bool.eqb] in Hr.
  assert (Hhash : Text.has_char "#" id = false) by by apply plain_id_has_not.
  destruct Hsep as [->| ->].
  - rewrite (TextMore.before_fragment_app "v=") in Hr by done.
    rewrite (TextMore.before_fragment_app id) in Hr by done.
    rewrite (TextMore.before_fragment_app "&" t eq_refl
               : before_fragment (String "&" t) = _) in Hr.
    destruct (parse_qs_v_first id (before_fragment t) Hid) as [vs Hv].
    apply (extract_parsed_watch _ _ id vs Hr); [done|done|exact Hv|by destruct Hid].
  - rewrite (TextMore.before_fragment_app "v=") in Hr by done.
    rewrite (TextMore.before_fragment_at id) in Hr by done.
    apply (extract_parsed_watch _ _ id [] Hr); [done|done| |by destruct Hid].
    by apply parse_qs_v.
Qed.

Lemma extract_shorts_more sch host id sep tail :
  sch ∈ ["http"; "https"] → Text.lower host ∈ youtube_hosts → plain_id id →
  sep = "?"%char ∨ sep = "#"%char →
  _extract_youtube_video_id lib
    (sch +:+ "://" +:+ host +:+ "/shorts/" +:+ id +:+ String sep tail) = Some id.
Proof.
  intros Hsch Hhost Hid Hsep.
  assert (Hsafe : Text.all_chars host_safe host = true).
  { apply (host_safe_of_lower host youtube_hosts); [done | by vm_compute]. }
  destruct (urlparse_path lib sch host ("/shorts/" +:+ id) sep tail Hsch Hsafe eq_refl)
    as [f Hr]; [|done|].
  { rewrite TextFacts.all_chars_app, (plain_id_path id Hid). reflexivity. }
  change (sch +:+ "://" +:+ host +:+ "/shorts/" +:+ id +:+ String sep tail)
    with (sch +:+ "://" +:+ host +:+ ("/shorts/" +:+ id) +:+ String sep tail).
  by apply (extract_parsed_shorts _ _ id Hr).
Qed.

Lemma extract_youtu_be_more sch host id sep tail :
  sch ∈ ["http"; "https"] → Text.lower host = "youtu.be" → plain_id id →
  sep = "?"%char ∨ sep = "#"%char →
  _extract_youtube_video_id lib
    (sch +:+ "://" +:+ host +:+ "/" +:+ id +:+ String sep tail) = Some id.
Proof.
  intros Hsch Hhost Hid Hsep.
  assert (Hsafe : Text.all_chars host_safe host = true).
  { apply (host_safe_of_lower host ["youtu.be"]); [|by vm_compute].
    rewrite Hhost. by left. }
  destruct (urlparse_path lib sch host ("/" +:+ id) sep tail Hsch Hsafe eq_refl)
    as [f Hr]; [|done|].
  { rewrite TextFacts.all_chars_app, (plain_id_path id Hid). reflexivity. }
  change (sch +:+ "://" +:+ host +:+ "/" +:+ id +:+ String sep tail)
    with (sch +:+ "://" +:+ host +:+ ("/" +:+ id) +:+ String sep tail).
  by apply (extract_parsed_youtu_be _ _ id Hr).
Qed.

End ClassifierMore.

(** X15.  What follows the identifier in a YouTube URL does not change it.
    For an http or https URL on youtube.com, www.youtube.com or
    m.youtube.com the classifier returns ID for /watch?v=ID followed by
    further parameters ([&...]) or by a fragment ([#...]), and for
    /shorts/ID followed by a query ([?...]) or a fragment; on youtu.be it
    returns ID for /ID followed by a query or a fragment.  The text that
    follows is arbitrary; ID is not empty and has none of the characters
    [/ ? # ; & % +], tab, carriage return and line feed. *)
Theorem trailing_parts_ignored
    (lib : PyLib) (sch host id : string) (sep : ascii) (tail : string) :
  sch ∈ ["http"; "https"] →
  plain_id id →
  (Text.lower host ∈ youtube_hosts →
   (sep = "&"%char ∨ sep = "#"%char →
    _extract_youtube_video_id lib
      (sch +:+ "://" +:+ host +:+ "/watch?v=" +:+ id +:+ String sep tail) = Some id)
   ∧ (sep = "?"%char ∨ sep = "#"%char →
      _extract_youtube_video_id lib
        (sch +:+ "://" +:+ host +:+ "/shorts/" +:+ id +:+ String sep tail) = Some id))
  ∧ (Text.lower host = "youtu.be" →
     sep = "?"%char ∨ sep = "#"%char →
     _extract_youtube_video_id lib
       (sch +:+ "://" +:+ host +:+ "/" +:+ id +:+ String sep tail) = Some id).
Proof.
  intros Hsch Hid. split; [intros Hhost; split|]; intros.
  - by apply extract_watch_more.
  - by apply extract_shorts_more.
  - by apply extract_youtu_be_more.
Qed.

Lemma trailing_parts_ignored_witness :
  _extract_youtube_video_id Demo.lib "https://www.youtube.com/watch?v=abc123&t=42s#top"
  = Some "abc123".
Proof.
  refine (proj1 (proj1 (trailing_parts_ignored Demo.lib "https" "www.youtube.com"
                          "abc123" "&" "t=42s#top" _ _) _) _).
  - right. left.
  - split; reflexivity.
  - left.
  - left. reflexivity.
Defined.

(** ** Further properties: a URL written without its scheme *)

Lemma lower_host_plain c :
  host_char (Text.lower_char c) = true →
  negb (Url.c0_control_or_space c) && negb (Url.unsafe_byte c)
  && negb (Ascii.eqb c ":") && negb (Ascii.eqb c "/") = true.
Proof.
  revert c.
  enough (H : ∀ c, implb (host_char (Text.lower_char c))
                     (negb (Url.c0_control_or_space c) && negb (Url.unsafe_byte c)
                      && negb (Ascii.eqb c ":") && negb (Ascii.eqb c "/")) = true).
  { intros c Hc. specialize (H c). by rewrite Hc in H. }
  apply forall_ascii. by vm_compute.
Qed.

Section NoScheme.
Context (lib : PyLib).

Lemma urlparse_no_scheme host rest r :
  Text.lower host ∈ "youtu.be" :: youtube_hosts →
  Text.has_char ":" rest = false →
  Url.urlparse lib (host +:+ rest) = Return r →
  Url.netloc r = EmptyString.
Proof.
  intros Hhost Hrest.
  assert (Hplain : Text.all_chars
            (fun c => negb (Url.c0_control_or_space c) && negb (Url.unsafe_byte c)
                      && negb (Ascii.eqb c ":") && negb (Ascii.eqb c "/")) host = true).
  { apply (TextFacts.all_chars_lower host_char); [apply lower_host_plain|].
    assert (Hall : forallb (Text.all_chars host_char) ("youtu.be" :: youtube_hosts) = true)
      by by vm_compute.
    rewrite forallb_forall in Hall. by apply Hall, list_elem_of_In. }
  assert (Hsafe : Text.all_chars (fun c => negb (Url.unsafe_byte c)) host = true).
  { revert Hplain. apply TextFacts.all_chars_impl. intros c.
    rewrite !andb_true_iff. tauto. }
  assert (Hcolon : Text.has_char ":" host = false).
  { rewrite TextFacts.has_char_all. apply negb_false_iff.
    revert Hplain. apply TextFacts.all_chars_impl. intros c.
    rewrite !andb_true_iff. tauto. }
  destruct host as [|c host].
  { exfalso. revert Hhost. unfold youtube_hosts. intros H.
    repeat (apply elem_of_cons in H as [H|H]; [discriminate|]).
    by apply elem_of_nil in H. }
  assert (Hc : Url.c0_control_or_space c = false ∧ Ascii.eqb c "/" = false).
  { cbn [Text.all_chars] in Hplain. apply andb_true_iff in Hplain as [Hc _].
    rewrite !andb_true_iff, !negb_true_iff in Hc. tauto. }
  destruct Hc as [Hc0 Hslash].
  set (t := Text.remove Url.unsafe_byte rest).
  assert (Hclean :
    Text.remove Url.unsafe_byte
      (Text.lstrip Url.c0_control_or_space (String c host +:+ rest))
    = String c host +:+ t).
  { rewrite TextFacts.lstrip_id.
    - by rewrite TextMore.remove_app, (TextFacts.remove_id _ (String c host)).
    - exact Hc0. }
  assert (Hscheme : Url.split_scheme (String c host +:+ t) = (EmptyString, String c host +:+ t)).
  { unfold Url.split_scheme. rewrite TextFacts.split_once_none; [done|].
    rewrite TextFacts.has_char_app, Hcolon. by apply has_char_remove. }
  assert (Hstart : Text.startswith (String c host +:+ t) "//" = false).
  { change (String c host +:+ t) with (String c (host +:+ t)).
    cbn [Text.startswith]. by rewrite Hslash. }
  unfold Url.urlparse, Url.urlsplit.
  rewrite Hclean, Hscheme. cbv beta iota zeta. rewrite Hstart.
  cbn [Text.has_char xorb andb Text.nonempty].
  destruct (Text.split_once "#" _) as [[u f]|];
    [destruct (Text.split_once "?" u) as [[u' q]|]
    |destruct (Text.split_once "?" _) as [[u' q]|]];
    cbn [Url.scheme Url.path Url.netloc];
    repeat case_match; intros; simplify_eq/=; done.
Qed.

End NoScheme.

(** X16.  A YouTube address written without its scheme is not recognised:
    for a text that begins with one of the four host names, in any letter
    case, and has no colon after it, the classifier returns no identifier,
    whatever path and query follow. *)
Theorem url_without_scheme_has_no_id (lib : PyLib) (host rest : string) :
  Text.lower host ∈ "youtu.be" :: youtube_hosts →
  Text.has_char ":" rest = false →
  _extract_youtube_video_id lib (host +:+ rest) = None.
Proof.
  intros Hhost Hrest. apply extract_other_host. intros r Hr.
  rewrite (urlparse_no_scheme lib host rest r Hhost Hrest Hr).
  unfold youtube_hosts. intros H.
  repeat (apply elem_of_cons in H as [H|H]; [discriminate|]).
  by apply elem_of_nil in H.
Qed.

Lemma url_without_scheme_has_no_id_witness :
  _extract_youtube_video_id Demo.lib "www.youtube.com/watch?v=abc123" = None.
Proof.
  refine (url_without_scheme_has_no_id Demo.lib "www.youtube.com" "/watch?v=abc123" _ _).
  - right. left.
  - reflexivity.
Defined.
